(** * The channel-client handler chain of [pkg/client/channel/invoke]

    A shallow embedding of [txnhandler.go]: the four handlers
    (proposal-processor selection, endorsement, endorsement validation,
    commit), the constructors that chain them, and the two helpers that
    drive the transactor.

    The Go code mutates one [RequestContext] through a pointer; here a handler
    is a function from the request context to a [Result]: how the call ended,
    the request context as it was left, and the calls made on the
    collaborators of the [ClientContext], in order. Statements about which
    calls are made, how often and in which order are then statements about
    lists. Go packages are modules, so that [fab.TxnID], [pb.Payload] or
    [status.New] read as in the source. *)

From Stdlib Require Import Strings.Byte.
From stdpp Require Import base numbers list strings gmap.

Local Open Scope string_scope.
Local Open Scope list_scope.
Local Open Scope Z_scope.

(** ** Imported packages, reduced to what the handlers touch *)

(** [protos/peer]: the response of a peer to a proposal. The pointers are taken
    to be non-nil, as a transactor delivers them. *)
Module pb.
Record Response := mkResponse {
  Status : Z;
  Message : string;
  Payload : list byte
}.

Record ProposalResponse := mkProposalResponse {
  GetResponse : Response
}.
End pb.

(** [pkg/util/errors/status]. *)
Module status.
Inductive Group :=
  | EndorserServerStatus
  | EventServerStatus
  | EndorserClientStatus
  | ClientStatus.

Record Status := mkStatus {
  Group_of : Group;
  Code : Z;
  Message : string;
  Details : list string
}.

(** [status.New(group, code, msg, details)]. *)
Definition New (group : Group) (code : Z) (msg : string)
    (details : list string) : Status :=
  mkStatus group code msg details.

(** Modelled from the spec: [status.NewFromProposalResponse] is not among the
    sources. The error for a rejecting peer "carries the offending
    endorser's identity and the peer-reported status/message": a status of
    the endorser-server group whose code and message are the peer's and
    whose details name the endorser. *)
Definition NewFromProposalResponse (res : pb.ProposalResponse)
    (endorser : string) : Status :=
  New EndorserServerStatus (pb.Status (pb.GetResponse res))
    (pb.Message (pb.GetResponse res)) [endorser].
End status.

(** Go's [error], with the values this package builds: a [*status.Status], the
    two wrappers of [github.com/pkg/errors], and [errors.New]. A collaborator
    may return any of them. *)
Inductive error :=
  | StatusError (s : status.Status)
  | WithMessage (cause : error) (msg : string)
  | Wrap (cause : error) (msg : string)
  | ErrorsNew (msg : string).

(** [selection/options]: the one option this package passes on. *)
Definition PeerFilter := string -> bool.

Inductive Opt :=
  | WithPeerFilter (filter : PeerFilter).

(** [context.Context] and the receive end of a channel are opaque handles;
    what a [select] on them yields is decided by the runtime. *)
Definition context_Context := nat.
Definition Chan := nat.

(** [pkg/common/providers/fab]. *)
Module fab.
(** A peer is identified by its URL; nothing here looks inside one, and every
    [Peer] is a [ProposalProcessor]. *)
Definition Peer := string.
Definition ProposalProcessor := Peer.
Definition TransactionID := string.
Definition Registration := nat.

Record ChaincodeInvokeRequest := mkChaincodeInvokeRequest {
  ChaincodeID : string;
  Fcn : string;
  Args : list (list byte);
  TransientMap : gmap string (list byte)
}.

Record TransactionHeader := mkTransactionHeader {
  HeaderID : TransactionID
}.

Record TransactionProposal := mkTransactionProposal {
  TxnID : TransactionID;
  ProposalBytes : list byte
}.

Record TransactionProposalResponse := mkTransactionProposalResponse {
  Endorser : string;
  ProposalResponse : pb.ProposalResponse
}.

(** [Proposal] is a pointer and may be nil. *)
Record TransactionRequest := mkTransactionRequest {
  Proposal : option TransactionProposal;
  ProposalResponses : list TransactionProposalResponse
}.

Record Transaction := mkTransaction {
  TransactionBytes : list byte
}.

Record TransactionResponse := mkTransactionResponse {
  Orderer : string
}.

Record TxStatusEvent := mkTxStatusEvent {
  TxValidationCode : Z
}.

(** The collaborators. A Go result [(slice, error)] is a pair, since a slice
    may come back next to an error; a result [(pointer, error)] is one or
    the other. *)
Record SelectionService := mkSelectionService {
  GetEndorsersForChaincode :
    list string -> list Opt -> list Peer * option error
}.

Record Transactor := mkTransactor {
  CreateTransactionHeader : TransactionHeader + error;
  SendTransactionProposal :
    TransactionProposal -> list ProposalProcessor ->
    list TransactionProposalResponse * option error;
  CreateTransaction : TransactionRequest -> Transaction + error;
  SendTransaction : Transaction -> TransactionResponse + error
}.

(** [fab.Sender] is the part of a transactor that creates and sends
    transactions. *)
Definition Sender := Transactor.

Record EventService := mkEventService {
  RegisterTxStatusEvent : string -> (Registration * Chan) + error
}.
End fab.

(** [pkg/fab/peer]: [PeersToTxnProcessors] copies the slice element by
    element. *)
Module peer.
Definition PeersToTxnProcessors (peers : list fab.Peer)
    : list fab.ProposalProcessor :=
  peers.
End peer.

(** The numeric constants the handlers compare against or report, declared in
    other packages: [common.Status_SUCCESS], [pb.TxValidationCode_VALID], and
    the two [status.Code]s, already through [ToInt32]. *)
Class Codes := {
  Status_SUCCESS : Z;
  TxValidationCode_VALID : Z;
  NoPeersFound : Z;
  EndorsementMismatch : Z
}.

(** [bytes.Compare]: lexicographic comparison, -1, 0 or +1; a nil slice is the
    empty slice. *)
Fixpoint bytes_Compare (a b : list byte) : Z :=
  match a, b with
  | [], [] => 0
  | [], _ :: _ => -1
  | _ :: _, [] => 1
  | x :: a', y :: b' =>
      match N.compare (Byte.to_N x) (Byte.to_N y) with
      | Eq => bytes_Compare a' b'
      | Lt => -1
      | Gt => 1
      end
  end.

(** ** The types of the package ([api.go]), as the handlers use them *)

Module api.
Record Request := mkRequest {
  ChaincodeID : string;
  Fcn : string;
  Args : list (list byte);
  TransientMap : gmap string (list byte)
}.

(** [Proposal] is a pointer, nil until the endorsement handler sets it. *)
Record Response := mkResponse {
  Proposal : option fab.TransactionProposal;
  TransactionID : fab.TransactionID;
  Responses : list fab.TransactionProposalResponse;
  Payload : list byte;
  TxValidationCode : Z
}.

Record Opts := mkOpts {
  Targets : list fab.Peer
}.
End api.
Import api.

Record RequestContext := mkRequestContext {
  Request : api.Request;
  Opts : api.Opts;
  Response : api.Response;
  Error : option error;
  Ctx : context_Context;
  SelectionFilter : option PeerFilter
}.

Record ClientContext := mkClientContext {
  Selection : fab.SelectionService;
  Transactor : fab.Transactor;
  EventService : fab.EventService
}.

(** Assignments to the fields of a request context. *)
Definition set_Error (e : error) (rc : RequestContext) : RequestContext :=
  mkRequestContext (Request rc) (Opts rc) (Response rc) (Some e) (Ctx rc)
    (SelectionFilter rc).

Definition set_Targets (ts : list fab.Peer) (rc : RequestContext)
    : RequestContext :=
  mkRequestContext (Request rc) (mkOpts ts) (Response rc) (Error rc) (Ctx rc)
    (SelectionFilter rc).

Definition set_Response (r : api.Response) (rc : RequestContext)
    : RequestContext :=
  mkRequestContext (Request rc) (Opts rc) r (Error rc) (Ctx rc)
    (SelectionFilter rc).

Definition set_Proposal (p : option fab.TransactionProposal)
    (rc : RequestContext) : RequestContext :=
  let r := Response rc in
  set_Response (mkResponse p (TransactionID r) (Responses r) (Payload r)
                  (TxValidationCode r)) rc.

Definition set_TransactionID (id : fab.TransactionID) (rc : RequestContext)
    : RequestContext :=
  let r := Response rc in
  set_Response (mkResponse (Proposal r) id (Responses r) (Payload r)
                  (TxValidationCode r)) rc.

Definition set_Responses (rs : list fab.TransactionProposalResponse)
    (rc : RequestContext) : RequestContext :=
  let r := Response rc in
  set_Response (mkResponse (Proposal r) (TransactionID r) rs (Payload r)
                  (TxValidationCode r)) rc.

Definition set_Payload (p : list byte) (rc : RequestContext)
    : RequestContext :=
  let r := Response rc in
  set_Response (mkResponse (Proposal r) (TransactionID r) (Responses r) p
                  (TxValidationCode r)) rc.

Definition set_TxValidationCode (c : Z) (rc : RequestContext)
    : RequestContext :=
  let r := Response rc in
  set_Response (mkResponse (Proposal r) (TransactionID r) (Responses r)
                  (Payload r) c) rc.

(** ** Calls on collaborators, and how a handler call ends *)

Inductive Call :=
  | GetEndorsersForChaincode_call (chaincodeIDs : list string) (opts : list Opt)
  | CreateTransactionHeader_call
  | CreateChaincodeInvokeProposal_call (txh : fab.TransactionHeader)
      (request : fab.ChaincodeInvokeRequest)
  | SendTransactionProposal_call (proposal : fab.TransactionProposal)
      (targets : list fab.ProposalProcessor)
  | CreateTransaction_call (request : fab.TransactionRequest)
  | SendTransaction_call (tx : fab.Transaction)
  | RegisterTxStatusEvent_call (txnID : string)
  | Unregister_call (reg : fab.Registration).

Arguments Unregister_call reg%_nat.

(** A call of [Handle] returns, panics (a nil pointer is dereferenced), or
    never comes back from a [select] in which no case becomes ready. *)
Inductive Exit :=
  | Returned
  | Panicked
  | Blocked.

Record Result := mkResult {
  exit : Exit;
  final : RequestContext;
  calls : list Call
}.

Definition returned (rc : RequestContext) : Result :=
  mkResult Returned rc [].

Definition panicked (rc : RequestContext) : Result :=
  mkResult Panicked rc [].

Definition blocked (rc : RequestContext) : Result :=
  mkResult Blocked rc [].

(** [after cs r]: the calls [cs] were made, then the rest of the body ran with
    result [r]. *)
Definition after (cs : list Call) (r : Result) : Result :=
  mkResult (exit r) (final r) (cs ++ calls r).

(** [defer c] around a body with result [r]: the call [c] is made when the
    function returns or unwinds from a panic, and is not made while the
    function is still blocked. *)
Definition deferred (c : Call) (r : Result) : Result :=
  match exit r with
  | Blocked => r
  | _ => mkResult (exit r) (final r) (calls r ++ [c])
  end.

(** [if next != nil { next.Handle(requestContext, clientContext) }]. *)
Definition delegate (next : option (RequestContext -> Result))
    (rc : RequestContext) : Result :=
  match next with
  | Some handle => handle rc
  | None => returned rc
  end.

(** What a [select] over a status channel and [ctx.Done()] yields. *)
Inductive Selected :=
  | Recv_statusNotifier (txStatus : fab.TxStatusEvent)
  | Recv_Done
  | NoneReady.

(** What the handlers use and this file does not define:
    - [txn.CreateChaincodeInvokeProposal], of [pkg/fab/txn];
    - the Go runtime's choice in the [select] of the commit handler;
    - the [Handle] method of the signature validation handler, declared in
      another file of the package, given its [next] as the others are. *)
Class Externals := {
  txn_CreateChaincodeInvokeProposal :
    fab.TransactionHeader -> fab.ChaincodeInvokeRequest ->
    fab.TransactionProposal + error;
  go_select : Chan -> context_Context -> Selected;
  SignatureValidationHandler_Handle :
    option (RequestContext -> Result) -> RequestContext -> ClientContext ->
    Result
}.

(** ** Endorsement validation: [EndorsementValidationHandler.validate] *)

Section Validate.
Context `{Codes}.

(** The [for n, r := range txProposalResponse] loop, with its index [n] and
    the reference payload [a1] as loop state. *)
Fixpoint validate_from (n : nat) (a1 : list byte)
    (txProposalResponse : list fab.TransactionProposalResponse)
    : option error :=
  match txProposalResponse with
  | [] => None
  | r :: rest =>
      if negb (pb.Status (pb.GetResponse (fab.ProposalResponse r))
               =? Status_SUCCESS)
      then Some (StatusError
                   (status.NewFromProposalResponse (fab.ProposalResponse r)
                      (fab.Endorser r)))
      else if (n =? 0)%nat
      then validate_from (S n)
             (pb.Payload (pb.GetResponse (fab.ProposalResponse r))) rest
      else if negb (bytes_Compare a1
                      (pb.Payload (pb.GetResponse (fab.ProposalResponse r)))
                    =? 0)
      then Some (StatusError
                   (status.New status.EndorserClientStatus
                      EndorsementMismatch
                      "ProposalResponsePayloads do not match" []))
      else validate_from (S n) a1 rest
  end.

(** [var a1 []byte] starts as the nil slice. *)
Definition validate
    (txProposalResponse : list fab.TransactionProposalResponse)
    : option error :=
  validate_from 0 [] txProposalResponse.
End Validate.

(** ** The two helpers that drive the transactor *)

Section Handlers.
Context `{Codes} `{Externals}.

Definition createAndSendTransaction (sender : fab.Sender)
    (proposal : option fab.TransactionProposal)
    (resps : list fab.TransactionProposalResponse)
    : list Call * (fab.TransactionResponse + error) :=
  let txnRequest := fab.mkTransactionRequest proposal resps in
  match fab.CreateTransaction sender txnRequest with
  | inr err =>
      ([CreateTransaction_call txnRequest],
       inr (WithMessage err "CreateTransaction failed"))
  | inl tx =>
      match fab.SendTransaction sender tx with
      | inr err =>
          ([CreateTransaction_call txnRequest; SendTransaction_call tx],
           inr (WithMessage err "SendTransaction failed"))
      | inl transactionResponse =>
          ([CreateTransaction_call txnRequest; SendTransaction_call tx],
           inl transactionResponse)
      end
  end.

(** Returns the responses, the proposal (nil when none was created) and the
    error, as the Go function does. *)
Definition createAndSendTransactionProposal (transactor : fab.Transactor)
    (chrequest : api.Request) (targets : list fab.ProposalProcessor)
    : list Call *
      (list fab.TransactionProposalResponse *
       option fab.TransactionProposal * option error) :=
  let request :=
    fab.mkChaincodeInvokeRequest (ChaincodeID chrequest) (Fcn chrequest)
      (Args chrequest) (TransientMap chrequest) in
  match fab.CreateTransactionHeader transactor with
  | inr err =>
      ([CreateTransactionHeader_call],
       ([], None, Some (WithMessage err "creating transaction header failed")))
  | inl txh =>
      match txn_CreateChaincodeInvokeProposal txh request with
      | inr err =>
          ([CreateTransactionHeader_call;
            CreateChaincodeInvokeProposal_call txh request],
           ([], None,
            Some (WithMessage err "creating transaction proposal failed")))
      | inl proposal =>
          let '(transactionProposalResponses, err) :=
            fab.SendTransactionProposal transactor proposal targets in
          ([CreateTransactionHeader_call;
            CreateChaincodeInvokeProposal_call txh request;
            SendTransactionProposal_call proposal targets],
           (transactionProposalResponses, Some proposal, err))
      end
  end.

(** ** The handlers

    Each [Handle] takes the handler's [next] field as an optional
    continuation. *)

Definition EndorsementHandler_Handle
    (next : option (RequestContext -> Result))
    (requestContext : RequestContext) (clientContext : ClientContext)
    : Result :=
  if (length (Targets (Opts requestContext)) =? 0)%nat
  then returned
         (set_Error
            (StatusError
               (status.New status.ClientStatus NoPeersFound
                  "targets were not provided" []))
            requestContext)
  else
    let '(cs, (transactionProposalResponses, proposal, err)) :=
      createAndSendTransactionProposal (Transactor clientContext)
        (Request requestContext)
        (peer.PeersToTxnProcessors (Targets (Opts requestContext))) in
    let requestContext := set_Proposal proposal requestContext in
    match proposal with
    | None =>
        (* [proposal.TxnID] on a nil [proposal] *)
        after cs (panicked requestContext)
    | Some p =>
        let requestContext :=
          set_TransactionID (fab.TxnID p) requestContext in
        match err with
        | Some err => after cs (returned (set_Error err requestContext))
        | None =>
            let requestContext :=
              set_Responses transactionProposalResponses requestContext in
            let requestContext :=
              match transactionProposalResponses with
              | r0 :: _ =>
                  set_Payload
                    (pb.Payload (pb.GetResponse (fab.ProposalResponse r0)))
                    requestContext
              | [] => requestContext
              end in
            after cs (delegate next requestContext)
        end
    end.

Definition ProposalProcessorHandler_Handle
    (next : option (RequestContext -> Result))
    (requestContext : RequestContext) (clientContext : ClientContext)
    : Result :=
  if (length (Targets (Opts requestContext)) =? 0)%nat
  then
    let selectionOpts : list Opt := [] in
    let selectionOpts :=
      match SelectionFilter requestContext with
      | Some filter => selectionOpts ++ [WithPeerFilter filter]
      | None => selectionOpts
      end in
    let chaincodeIDs := [ChaincodeID (Request requestContext)] in
    let '(endorsers, err) :=
      fab.GetEndorsersForChaincode (Selection clientContext) chaincodeIDs
        selectionOpts in
    after [GetEndorsersForChaincode_call chaincodeIDs selectionOpts]
      match err with
      | Some err =>
          returned
            (set_Error (WithMessage err "Failed to get endorsing peers")
               requestContext)
      | None => delegate next (set_Targets endorsers requestContext)
      end
  else delegate next requestContext.

Definition EndorsementValidationHandler_Handle
    (next : option (RequestContext -> Result))
    (requestContext : RequestContext) (clientContext : ClientContext)
    : Result :=
  match validate (Responses (Response requestContext)) with
  | Some err =>
      returned
        (set_Error (WithMessage err "endorsement validation failed")
           requestContext)
  | None => delegate next requestContext
  end.

Definition CommitTxHandler_Handle
    (next : option (RequestContext -> Result))
    (requestContext : RequestContext) (clientContext : ClientContext)
    : Result :=
  let txnID := TransactionID (Response requestContext) in
  after [RegisterTxStatusEvent_call txnID]
    match fab.RegisterTxStatusEvent (EventService clientContext) txnID with
    | inr err =>
        returned
          (set_Error (Wrap err "error registering for TxStatus event")
             requestContext)
    | inl (reg, statusNotifier) =>
        deferred (Unregister_call reg)
          (let '(cs, sent) :=
             createAndSendTransaction (Transactor clientContext)
               (Proposal (Response requestContext))
               (Responses (Response requestContext)) in
           after cs
             match sent with
             | inr err =>
                 returned
                   (set_Error (Wrap err "CreateAndSendTransaction failed")
                      requestContext)
             | inl _ =>
                 match go_select statusNotifier (Ctx requestContext) with
                 | Recv_statusNotifier txStatus =>
                     let requestContext :=
                       set_TxValidationCode (fab.TxValidationCode txStatus)
                         requestContext in
                     if negb (fab.TxValidationCode txStatus
                              =? TxValidationCode_VALID)
                     then returned
                            (set_Error
                               (StatusError
                                  (status.New status.EventServerStatus
                                     (fab.TxValidationCode txStatus)
                                     "received invalid transaction" []))
                               requestContext)
                     else delegate next requestContext
                 | Recv_Done =>
                     returned
                       (set_Error
                          (ErrorsNew "Execute didn't receive block event")
                          requestContext)
                 | NoneReady => blocked requestContext
                 end
             end)
    end.

(** ** Handlers as values, and the chain builder *)

(** A [Handler] is one of the handlers of this file, the signature
    validation handler, or any other implementation of the interface. *)
#[local] Set Warnings "-register-all".
Inductive Handler :=
  | EndorsementHandler (next : option Handler)
  | ProposalProcessorHandler (next : option Handler)
  | EndorsementValidationHandler (next : option Handler)
  | CommitTxHandler (next : option Handler)
  | SignatureValidationHandler (next : option Handler)
  | OtherHandler (handle : RequestContext -> ClientContext -> Result).

(** Dynamic dispatch of [h.Handle(requestContext, clientContext)]. *)
Fixpoint Handle (h : Handler) (requestContext : RequestContext)
    (clientContext : ClientContext) : Result :=
  let continue (next : option Handler) :=
    match next with
    | Some n => Some (fun rc => Handle n rc clientContext)
    | None => None
    end in
  match h with
  | EndorsementHandler next =>
      EndorsementHandler_Handle (continue next) requestContext clientContext
  | ProposalProcessorHandler next =>
      ProposalProcessorHandler_Handle (continue next) requestContext
        clientContext
  | EndorsementValidationHandler next =>
      EndorsementValidationHandler_Handle (continue next) requestContext
        clientContext
  | CommitTxHandler next =>
      CommitTxHandler_Handle (continue next) requestContext clientContext
  | SignatureValidationHandler next =>
      SignatureValidationHandler_Handle (continue next) requestContext
        clientContext
  | OtherHandler handle => handle requestContext clientContext
  end.

Definition getNext (next : list Handler) : option Handler :=
  if (0 <? length next)%nat then next !! 0%nat else None.

Definition NewProposalProcessorHandler (next : list Handler) : Handler :=
  ProposalProcessorHandler (getNext next).

Definition NewEndorsementHandler (next : list Handler) : Handler :=
  EndorsementHandler (getNext next).

Definition NewEndorsementValidationHandler (next : list Handler) : Handler :=
  EndorsementValidationHandler (getNext next).

Definition NewCommitHandler (next : list Handler) : Handler :=
  CommitTxHandler (getNext next).

(** Modelled from the spec: [NewSignatureValidationHandler] is declared in
    another file of the package; "builders accept a variable-length list of
    trailing stages and treat only the first supplied one as the
    continuation", as its four siblings here do. *)
Definition NewSignatureValidationHandler (next : list Handler) : Handler :=
  SignatureValidationHandler (getNext next).

Definition NewQueryHandler (next : list Handler) : Handler :=
  NewProposalProcessorHandler
    [NewEndorsementHandler
       [NewEndorsementValidationHandler
          [NewSignatureValidationHandler next]]].

Definition NewExecuteHandler (next : list Handler) : Handler :=
  NewProposalProcessorHandler
    [NewEndorsementHandler
       [NewEndorsementValidationHandler
          [NewSignatureValidationHandler [NewCommitHandler next]]]].
End Handlers.

(** * Vocabulary of the statements *)

Section Vocabulary.
Context `{Codes} `{Externals}.

Definition payload_of (r : fab.TransactionProposalResponse) : list byte :=
  pb.Payload (pb.GetResponse (fab.ProposalResponse r)).

Definition succeeded (r : fab.TransactionProposalResponse) : Prop :=
  pb.Status (pb.GetResponse (fab.ProposalResponse r)) = Status_SUCCESS.

#[global] Instance succeeded_dec (r : fab.TransactionProposalResponse)
    : Decision (succeeded r) :=
  Z.eq_dec (pb.Status (pb.GetResponse (fab.ProposalResponse r)))
    Status_SUCCESS.

(** The payload of the response at index 0 (nil for no responses). *)
Definition first_payload (rs : list fab.TransactionProposalResponse)
    : list byte :=
  match rs with
  | r0 :: _ => payload_of r0
  | [] => []
  end.

(** A response passes when its status is success and its payload is, byte
    for byte, the reference payload. *)
Definition passes (ref : list byte) (r : fab.TransactionProposalResponse)
    : Prop :=
  succeeded r /\ payload_of r = ref.

(** The errors of the taxonomy, written out. *)
Definition PeerRejection (r : fab.TransactionProposalResponse) : error :=
  StatusError
    (status.mkStatus status.EndorserServerStatus
       (pb.Status (pb.GetResponse (fab.ProposalResponse r)))
       (pb.Message (pb.GetResponse (fab.ProposalResponse r)))
       [fab.Endorser r]).

Definition EndorsementMismatchError : error :=
  StatusError
    (status.mkStatus status.EndorserClientStatus EndorsementMismatch
       "ProposalResponsePayloads do not match" []).


Definition SelectionFailure (cause : error) : error :=
  WithMessage cause "Failed to get endorsing peers".

Definition InvalidOutcome (code : Z) : error :=
  StatusError
    (status.mkStatus status.EventServerStatus code
       "received invalid transaction" []).

Definition ConfirmationTimeout : error :=
  ErrorsNew "Execute didn't receive block event".

Definition RegistrationFailure (cause : error) : error :=
  Wrap cause "error registering for TxStatus event".

(** Running an optional handler: what [delegate] does with a [next] field. *)
Definition run (next : option Handler) (rc : RequestContext)
    (cc : ClientContext) : Result :=
  match next with
  | Some n => Handle n rc cc
  | None => returned rc
  end.

(** The [next] field of a handler as the continuation its [Handle] runs. *)
Definition continuation (next : option Handler) (cc : ClientContext)
    : option (RequestContext -> Result) :=
  match next with
  | Some n => Some (fun rc => Handle n rc cc)
  | None => None
  end.

(** The four stages of this file, and chains of them in front of [tail]. *)
Inductive Stage :=
  | TargetResolution
  | Endorsement
  | Validation
  | CommitAndConfirm.

Definition stage (k : Stage) (next : option Handler) : Handler :=
  match k with
  | TargetResolution => ProposalProcessorHandler next
  | Endorsement => EndorsementHandler next
  | Validation => EndorsementValidationHandler next
  | CommitAndConfirm => CommitTxHandler next
  end.

Definition chain (ks : list Stage) (tail : option Handler) : option Handler :=
  foldr (fun k next => Some (stage k next)) tail ks.


Definition invoke_request (rc : RequestContext) : fab.ChaincodeInvokeRequest :=
  fab.mkChaincodeInvokeRequest (ChaincodeID (Request rc)) (Fcn (Request rc))
    (Args (Request rc)) (TransientMap (Request rc)).

Definition transaction_request (rc : RequestContext) : fab.TransactionRequest :=
  fab.mkTransactionRequest (Proposal (Response rc)) (Responses (Response rc)).

(** Classifying calls: the release of a registration, and the broadcast of
    a transaction. *)
Definition is_Unregister (c : Call) : bool :=
  match c with
  | Unregister_call _ => true
  | _ => false
  end.

Definition is_broadcast (c : Call) : bool :=
  match c with
  | SendTransaction_call _ => true
  | _ => false
  end.

Definition CommitFailure (cause : error) : error :=
  Wrap cause "CreateAndSendTransaction failed".

(** The pipelines as the specification describes them, without a signature
    validation stage. *)
Definition query_pipeline_as_specified (next : list Handler) : Handler :=
  ProposalProcessorHandler
    (Some (EndorsementHandler
             (Some (EndorsementValidationHandler (getNext next))))).

Definition execute_pipeline_as_specified (next : list Handler) : Handler :=
  ProposalProcessorHandler
    (Some (EndorsementHandler
             (Some (EndorsementValidationHandler
                      (Some (CommitTxHandler (getNext next))))))).
End Vocabulary.

(** * Sample collaborators

    Concrete codes, collaborators and request contexts on which the
    statements below are exercised. *)

Module Sample.

Definition codes : Codes :=
  {| Status_SUCCESS := 200;
     TxValidationCode_VALID := 0;
     NoPeersFound := 6;
     EndorsementMismatch := 3 |}.

(** The runtime delivers a valid outcome under context 0, an invalid one
    (code 11) under context 1, the cancellation under context 2, and nothing
    under any other context. Proposal creation fails for a header without
    identifier. *)
Definition externals : Externals :=
  {| txn_CreateChaincodeInvokeProposal := fun txh _ =>
       if String.eqb (fab.HeaderID txh) ""
       then inr (ErrorsNew "missing transaction identifier")
       else inl (fab.mkTransactionProposal (fab.HeaderID txh) []);
     go_select := fun _ ctx =>
       match ctx with
       | 0%nat => Recv_statusNotifier (fab.mkTxStatusEvent 0)
       | 1%nat => Recv_statusNotifier (fab.mkTxStatusEvent 11)
       | 2%nat => Recv_Done
       | _ => NoneReady
       end;
     SignatureValidationHandler_Handle := fun next rc _ => delegate next rc |}.

Definition OK : list byte := [x4f; x4b].
Definition DIFF : list byte := [x44; x49; x46; x46].

Definition endorsed (endorser : string) (payload : list byte)
    : fab.TransactionProposalResponse :=
  fab.mkTransactionProposalResponse endorser
    (pb.mkProposalResponse (pb.mkResponse 200 "" payload)).

Definition denied (endorser : string) : fab.TransactionProposalResponse :=
  fab.mkTransactionProposalResponse endorser
    (pb.mkProposalResponse (pb.mkResponse 500 "access denied" [])).

Definition transactor : fab.Transactor :=
  fab.mkTransactor
    (inl (fab.mkTransactionHeader "tx1"))
    (fun _ targets => (map (fun t => endorsed t OK) targets, None))
    (fun _ => inl (fab.mkTransaction []))
    (fun _ => inl (fab.mkTransactionResponse "orderer")).

Definition transactor_without_header : fab.Transactor :=
  fab.mkTransactor
    (inr (ErrorsNew "no signing identity"))
    (fab.SendTransactionProposal transactor)
    (fab.CreateTransaction transactor)
    (fab.SendTransaction transactor).

Definition transactor_with_empty_header : fab.Transactor :=
  fab.mkTransactor
    (inl (fab.mkTransactionHeader ""))
    (fab.SendTransactionProposal transactor)
    (fab.CreateTransaction transactor)
    (fab.SendTransaction transactor).

Definition transactor_send_fails : fab.Transactor :=
  fab.mkTransactor
    (fab.CreateTransactionHeader transactor)
    (fun _ _ => ([], Some (ErrorsNew "connection refused")))
    (fab.CreateTransaction transactor)
    (fab.SendTransaction transactor).

Definition transactor_broadcast_fails : fab.Transactor :=
  fab.mkTransactor
    (fab.CreateTransactionHeader transactor)
    (fab.SendTransactionProposal transactor)
    (fab.CreateTransaction transactor)
    (fun _ => inr (ErrorsNew "orderer unreachable")).

Definition selection : fab.SelectionService :=
  fab.mkSelectionService (fun _ _ => (["peer1"; "peer2"], None)).

Definition selection_fails : fab.SelectionService :=
  fab.mkSelectionService
    (fun _ _ => (["peer9"], Some (ErrorsNew "no chaincode deployed"))).

Definition events : fab.EventService :=
  fab.mkEventService (fun _ => inl (7%nat, 3%nat)).

Definition events_fail : fab.EventService :=
  fab.mkEventService (fun _ => inr (ErrorsNew "event hub disconnected")).

Definition client : ClientContext :=
  mkClientContext selection transactor events.

Definition request : api.Request :=
  api.mkRequest "mycc" "invoke" [] ∅.

Definition empty_response : api.Response :=
  api.mkResponse None "" [] [] 0.

(** A fresh request context with the given targets and cancellation
    context. *)
Definition fresh (targets : list fab.Peer) (ctx : context_Context)
    : RequestContext :=
  mkRequestContext request (mkOpts targets) empty_response None ctx None.

(** A request context as the endorsement stage leaves it after two agreeing
    endorsements. *)
Definition endorsed_context (ctx : context_Context) : RequestContext :=
  mkRequestContext request (mkOpts ["peer1"; "peer2"])
    (api.mkResponse (Some (fab.mkTransactionProposal "tx1" [])) "tx1"
       [endorsed "peer1" OK; endorsed "peer2" OK] OK 0)
    None ctx None.

(** A request context holding two successful endorsements that disagree. *)
Definition disagreeing_context : RequestContext :=
  mkRequestContext request (mkOpts ["peer1"; "peer2"])
    (api.mkResponse (Some (fab.mkTransactionProposal "tx1" [])) "tx1"
       [endorsed "peer1" OK; endorsed "peer2" DIFF] OK 0)
    None 0%nat None.

Arguments fresh targets ctx%_nat.
Arguments endorsed_context ctx%_nat.

End Sample.

(** * The event endpoint discovery provider ([pkg/fab/events/endpoint])

    A discovery provider that wraps the one of the client context and turns
    every peer it discovers into an event endpoint. Nothing here is stateful
    beyond the options applied at construction, so the functions are pure. *)

Module endpoint.

(** [fab.TargetFilter]: the [Accept] method. *)
Definition fab_TargetFilter := fab.Peer -> bool.

(** [peer.URL()]: a peer is identified by its URL. *)
Definition URL (p : fab.Peer) : string := p.

(** [core.PeerConfig], only ever passed on. *)
Record core_PeerConfig := mkPeerConfig {
  ConfigURL : string;
  EventURL : string
}.

(** [core.Config]: [PeerConfigByURL] returns a pointer and an error, and the
    code tests both, so the result is a pair. *)
Record core_Config := mkConfig {
  PeerConfigByURL : string -> option core_PeerConfig * option error
}.

(** [fab.DiscoveryService] and [fab.DiscoveryProvider]. *)
Record fab_DiscoveryService := mkFabDiscoveryService {
  GetPeers : list fab.Peer * option error
}.

Record fab_DiscoveryProvider := mkFabDiscoveryProvider {
  fab_CreateDiscoveryService : string -> fab_DiscoveryService + error
}.

(** [context.Client], with the two methods called here. *)
Record context_Client := mkClient {
  Client_DiscoveryProvider : fab_DiscoveryProvider;
  Client_Config : core_Config
}.

(** What this file uses and does not define: [FromPeerConfig], of another
    file of the package, whose endpoint is used as a [fab.Peer], and
    [discovery.NewDiscoveryFilterService]. *)
Class Imports := {
  FromPeerConfig :
    core_Config -> fab.Peer -> core_PeerConfig -> fab.Peer + error;
  discovery_NewDiscoveryFilterService :
    fab_DiscoveryService -> fab_TargetFilter -> fab_DiscoveryService
}.

(** The embedded provider, the client context, and the filter, nil unless an
    option sets it. *)
Record DiscoveryProvider := mkDiscoveryProvider {
  embedded_DiscoveryProvider : fab_DiscoveryProvider;
  ctx : context_Client;
  filter : option fab_TargetFilter
}.

(** [type Opt func(p *DiscoveryProvider)]: an update of the provider. *)
Definition Opt := DiscoveryProvider -> DiscoveryProvider.

(** The filter is an interface value and may be nil. *)
Definition WithTargetFilter (filter : option fab_TargetFilter) : Opt :=
  fun p => mkDiscoveryProvider (embedded_DiscoveryProvider p) (ctx p) filter.

Definition NewDiscoveryProvider (ctx : context_Client) (opts : list Opt)
    : DiscoveryProvider :=
  let p := mkDiscoveryProvider (Client_DiscoveryProvider ctx) ctx None in
  foldl (fun p opt => opt p) p opts.

Record discoveryService := mkDiscoveryService {
  embedded_DiscoveryService : fab_DiscoveryService;
  service_ctx : context_Client
}.

Section Functions.
Context `{Imports}.

Definition CreateDiscoveryService (p : DiscoveryProvider) (channelID : string)
    : discoveryService + error :=
  match fab_CreateDiscoveryService (embedded_DiscoveryProvider p) channelID with
  | inr err => inr err
  | inl target =>
      let target :=
        match filter p with
        | Some f => discovery_NewDiscoveryFilterService target f
        | None => target
        end in
      inl (mkDiscoveryService target (ctx p))
  end.

(** [fmt.Sprintf] of the two formats, each with one [%s]. *)
Definition no_peer_config (url : string) : string :=
  String.append "unable to get peer config from [" (String.append url "]").

Definition no_event_endpoint (url : string) : string :=
  String.append "unable to create event endpoint for ["
    (String.append url "]").

(** The [for _, peer := range peers] loop of [GetPeers], with the endpoints
    appended so far as loop state. [errors.Wrapf] is [errors.Wrap] of the
    formatted message, [errors.Errorf] is [errors.New] of it. *)
Fixpoint GetPeers_from (s : discoveryService) (eventEndpoints : list fab.Peer)
    (peers : list fab.Peer) : list fab.Peer * option error :=
  match peers with
  | [] => (eventEndpoints, None)
  | peer :: rest =>
      let '(peerConfig, err) :=
        PeerConfigByURL (Client_Config (service_ctx s)) (URL peer) in
      match err with
      | Some err => ([], Some (Wrap err (no_peer_config (URL peer))))
      | None =>
          match peerConfig with
          | None => ([], Some (ErrorsNew (no_peer_config (URL peer))))
          | Some peerConfig =>
              match FromPeerConfig (Client_Config (service_ctx s)) peer
                      peerConfig with
              | inr err =>
                  ([], Some (Wrap err (no_event_endpoint (URL peer))))
              | inl eventEndpoint =>
                  GetPeers_from s (eventEndpoints ++ [eventEndpoint]) rest
              end
          end
      end
  end.

Definition discoveryService_GetPeers (s : discoveryService)
    : list fab.Peer * option error :=
  let eventEndpoints : list fab.Peer := [] in
  let '(peers, err) := GetPeers (embedded_DiscoveryService s) in
  match err with
  | Some err => ([], Some err)
  | None => GetPeers_from s eventEndpoints peers
  end.

(** The event endpoint of one peer, when it has a configuration and an
    endpoint can be made of it. *)
Definition endpoint_of (cfg : core_Config) (peer eventEndpoint : fab.Peer)
    : Prop :=
  exists peerConfig,
    PeerConfigByURL cfg (URL peer) = (Some peerConfig, None) /\
    FromPeerConfig cfg peer peerConfig = inl eventEndpoint.

(** The error [GetPeers] reports for a peer that cannot be converted. *)
Definition conversion_error (cfg : core_Config) (peer : fab.Peer)
    (e : error) : Prop :=
  (exists peerConfig err,
     PeerConfigByURL cfg (URL peer) = (peerConfig, Some err) /\
     e = Wrap err (no_peer_config (URL peer))) \/
  (PeerConfigByURL cfg (URL peer) = (None, None) /\
   e = ErrorsNew (no_peer_config (URL peer))) \/
  (exists peerConfig err,
     PeerConfigByURL cfg (URL peer) = (Some peerConfig, None) /\
     FromPeerConfig cfg peer peerConfig = inr err /\
     e = Wrap err (no_event_endpoint (URL peer))).
End Functions.

End endpoint.

(** * More vocabulary, for the handlers in chains *)

(** The parts of a request context no stage of this file assigns to. *)
Definition same_request (rc rc' : RequestContext) : Prop :=
  Request rc' = Request rc /\ Ctx rc' = Ctx rc /\
  SelectionFilter rc' = SelectionFilter rc.

(** The calls of the commit stage: on the event service, and the two that
    create and broadcast a transaction. *)
Definition is_commit_call (c : Call) : bool :=
  match c with
  | RegisterTxStatusEvent_call _ | Unregister_call _
  | CreateTransaction_call _ | SendTransaction_call _ => true
  | _ => false
  end.

(** A result with calls made before it and, unless it is blocked, after. *)
Definition around (pre post : list Call) (r : Result) : Result :=
  mkResult (exit r) (final r)
    (pre ++ calls r ++ match exit r with Blocked => [] | _ => post end).

(** The request context the endorsement stage hands on when the proposal [p]
    was sent and [resps] came back. *)
Definition endorsed_by (p : fab.TransactionProposal)
    (resps : list fab.TransactionProposalResponse) (rc : RequestContext)
    : RequestContext :=
  let rc := set_Responses resps
              (set_TransactionID (fab.TxnID p) (set_Proposal (Some p) rc)) in
  match resps with
  | r0 :: _ => set_Payload (payload_of r0) rc
  | [] => rc
  end.

(** Collaborators for the event endpoint provider. *)
Module EndpointSample.

Definition imports : endpoint.Imports :=
  {| endpoint.FromPeerConfig := fun _ peer peerConfig =>
       if String.eqb (endpoint.EventURL peerConfig) ""
       then inr (ErrorsNew "no event URL")
       else inl (endpoint.EventURL peerConfig);
     endpoint.discovery_NewDiscoveryFilterService := fun target f =>
       endpoint.mkFabDiscoveryService
         (List.filter f (fst (endpoint.GetPeers target)),
          snd (endpoint.GetPeers target)) |}.

(** [peer1] and [peer2] are configured, [peer3] has no event URL, [peer4]
    has no configuration, and looking up [peer5] fails. *)
Definition config : endpoint.core_Config :=
  endpoint.mkConfig (fun url =>
    if String.eqb url "peer1"
    then (Some (endpoint.mkPeerConfig "peer1" "events1"), None)
    else if String.eqb url "peer2"
    then (Some (endpoint.mkPeerConfig "peer2" "events2"), None)
    else if String.eqb url "peer3"
    then (Some (endpoint.mkPeerConfig "peer3" ""), None)
    else if String.eqb url "peer5"
    then (None, Some (ErrorsNew "malformed configuration"))
    else (None, None)).

Definition discovering (peers : list fab.Peer) : endpoint.fab_DiscoveryProvider :=
  endpoint.mkFabDiscoveryProvider (fun channelID =>
    if String.eqb channelID ""
    then inr (ErrorsNew "no channel")
    else inl (endpoint.mkFabDiscoveryService (peers, None))).

Definition client (peers : list fab.Peer) : endpoint.context_Client :=
  endpoint.mkClient (discovering peers) config.

Definition service (peers : list fab.Peer) : endpoint.discoveryService :=
  endpoint.mkDiscoveryService
    (endpoint.mkFabDiscoveryService (peers, None)) (client peers).

Definition only_peer1 : endpoint.fab_TargetFilter :=
  fun p => String.eqb p "peer1".

End EndpointSample.

(** More collaborators for the handlers. *)
Module Sample2.

(** The second endorser answers with another payload. *)
Definition transactor_disagreeing : fab.Transactor :=
  fab.mkTransactor
    (fab.CreateTransactionHeader Sample.transactor)
    (fun _ _ =>
       ([Sample.endorsed "peer1" Sample.OK; Sample.endorsed "peer2" Sample.DIFF],
        None))
    (fab.CreateTransaction Sample.transactor)
    (fab.SendTransaction Sample.transactor).



(** A handler that panics without touching anything. *)
Definition panicking : Handler :=
  OtherHandler (fun rc _ => panicked rc).

End Sample2.

(** * Properties *)

(** ** Byte comparison *)

Lemma to_N_inj (x y : byte) : Byte.to_N x = Byte.to_N y -> x = y.
Proof.
  intros E.
  assert (S : Some x = Some y); [|congruence].
  rewrite <- (Byte.of_to_N x), <- (Byte.of_to_N y), E. reflexivity.
Qed.

Lemma bytes_Compare_refl (a : list byte) : bytes_Compare a a = 0.
Proof.
  induction a as [|x a IH]; simpl; [reflexivity|].
  rewrite N.compare_refl. exact IH.
Qed.

Lemma bytes_Compare_eq (a b : list byte) : bytes_Compare a b = 0 <-> a = b.
Proof.
  split; [|intros ->; apply bytes_Compare_refl].
  revert b. induction a as [|x a IH]; intros [|y b]; simpl; try done.
  destruct (N.compare_spec (Byte.to_N x) (Byte.to_N y)) as [E| |]; try done.
  intros Hc. f_equal; [apply to_N_inj, E | apply IH, Hc].
Qed.

(** ** C1, C10: endorsement validation *)

Section ValidateFacts.
Context `{Codes}.

(** Past index 0 the loop keeps [a1] and stops at the first response that
    does not pass. *)
Lemma validate_from_S_stop (n : nat) (a1 : list byte)
    (pre later : list fab.TransactionProposalResponse)
    (r : fab.TransactionProposalResponse) :
  Forall (passes a1) pre ->
  ~ passes a1 r ->
  validate_from (S n) a1 (pre ++ r :: later) =
    Some (if bool_decide (succeeded r) then EndorsementMismatchError
          else PeerRejection r).
Proof.
  intros Hpre Hr. revert n.
  induction Hpre as [|x pre [Hs Hp] _ IH]; intros n; simpl.
  - destruct (Z.eqb_spec (pb.Status (pb.GetResponse (fab.ProposalResponse r)))
                Status_SUCCESS) as [Hs|Hs]; simpl.
    + rewrite bool_decide_eq_true_2 by exact Hs.
      destruct (Z.eqb_spec (bytes_Compare a1 (pb.Payload (pb.GetResponse
                  (fab.ProposalResponse r)))) 0) as [E|E]; simpl; [|done].
      apply bytes_Compare_eq in E. destruct Hr. split; [exact Hs|done].
    + rewrite bool_decide_eq_false_2 by exact Hs. done.
  - rewrite Hs, Z.eqb_refl. simpl.
    unfold payload_of in Hp. rewrite Hp, bytes_Compare_refl. simpl.
    apply IH.
Qed.

Lemma validate_from_S_None (n : nat) (a1 : list byte)
    (rs : list fab.TransactionProposalResponse) :
  validate_from (S n) a1 rs = None <-> Forall (passes a1) rs.
Proof.
  revert n. induction rs as [|r rs IH]; intros n; simpl.
  - split; [constructor|done].
  - destruct (Z.eqb_spec (pb.Status (pb.GetResponse (fab.ProposalResponse r)))
                Status_SUCCESS) as [Hs|Hs]; simpl.
    + destruct (Z.eqb_spec (bytes_Compare a1 (pb.Payload (pb.GetResponse
                  (fab.ProposalResponse r)))) 0) as [E|E]; simpl.
      * apply bytes_Compare_eq in E. rewrite IH. split.
        -- intros Hrs. constructor; [split; [exact Hs|done]|exact Hrs].
        -- intros Hrs. by inversion Hrs.
      * split; [done|]. intros Hrs. inversion Hrs as [|? ? [_ Hp] _]; subst.
        destruct E. apply bytes_Compare_eq. done.
    + split; [done|]. intros Hrs. inversion Hrs as [|? ? [Hs' _] _]; subst.
      done.
Qed.

(** At index 0 only the status is looked at, and the payload becomes the
    reference. *)
Lemma validate_cons (r0 : fab.TransactionProposalResponse)
    (rest : list fab.TransactionProposalResponse) :
  validate (r0 :: rest) =
    if bool_decide (succeeded r0)
    then validate_from 1 (payload_of r0) rest
    else Some (PeerRejection r0).
Proof.
  unfold validate. simpl.
  destruct (Z.eqb_spec (pb.Status (pb.GetResponse (fab.ProposalResponse r0)))
              Status_SUCCESS) as [Hs|Hs]; simpl.
  - by rewrite bool_decide_eq_true_2.
  - by rewrite bool_decide_eq_false_2.
Qed.

Lemma validate_stop (pre later : list fab.TransactionProposalResponse)
    (r : fab.TransactionProposalResponse) :
  Forall (passes (first_payload (pre ++ r :: later))) pre ->
  ~ passes (first_payload (pre ++ r :: later)) r ->
  validate (pre ++ r :: later) =
    Some (if bool_decide (succeeded r) then EndorsementMismatchError
          else PeerRejection r).
Proof.
  destruct pre as [|r0 pre]; simpl; intros Hpre Hr.
  - rewrite validate_cons.
    destruct (decide (succeeded r)) as [Hs|Hs].
    + destruct Hr. split; [exact Hs|reflexivity].
    + by rewrite bool_decide_eq_false_2.
  - rewrite validate_cons.
    inversion Hpre as [|? ? [Hs0 _] Hpre']; subst.
    rewrite bool_decide_eq_true_2 by exact Hs0.
    by apply validate_from_S_stop.
Qed.

Lemma validate_None (rs : list fab.TransactionProposalResponse) :
  validate rs = None <-> Forall (passes (first_payload rs)) rs.
Proof.
  destruct rs as [|r0 rest]; simpl.
  - split; [constructor|done].
  - rewrite validate_cons.
    destruct (decide (succeeded r0)) as [Hs|Hs].
    + rewrite bool_decide_eq_true_2 by exact Hs.
      rewrite validate_from_S_None. split.
      * intros Hrs. constructor; [split; [exact Hs|reflexivity]|exact Hrs].
      * intros Hrs. by inversion Hrs.
    + rewrite bool_decide_eq_false_2 by exact Hs.
      split; [done|]. intros Hrs. inversion Hrs as [|? ? [Hs' _] _]; subst.
      done.
Qed.

(** C1. Validation scans the responses in order and stops at the first one
    that offends, whatever comes [later]: if every response before [r]
    has success status and the payload of the response at index 0, then a
    non-success status of [r] gives the peer-rejection error naming [r]'s
    endorser, status and message, and otherwise a payload of [r] that
    differs from the one at index 0 gives the endorsement-mismatch error;
    in both cases the result is the one for the list cut after [r].
    Validation succeeds exactly when every response has success status and
    the payload of the response at index 0. *)
Theorem validate_first_offender_wins
    (rs : list fab.TransactionProposalResponse) :
  (forall pre r later,
     rs = pre ++ r :: later ->
     Forall (passes (first_payload rs)) pre ->
     (~ succeeded r ->
        validate rs = Some (PeerRejection r) /\
        validate (pre ++ [r]) = validate rs) /\
     (succeeded r -> payload_of r <> first_payload rs ->
        validate rs = Some EndorsementMismatchError /\
        validate (pre ++ [r]) = validate rs)) /\
  (validate rs = None <-> Forall (passes (first_payload rs)) rs).
Proof.
  split; [|apply validate_None].
  intros pre r later -> Hpre.
  assert (Hcut : first_payload (pre ++ [r]) = first_payload (pre ++ r :: later))
    by (by destruct pre).
  split.
  - intros Hs.
    assert (Hr : ~ passes (first_payload (pre ++ r :: later)) r)
      by (by intros [? _]).
    rewrite (validate_stop pre later r Hpre Hr).
    rewrite (validate_stop pre [] r); [|by rewrite Hcut..].
    by rewrite bool_decide_eq_false_2.
  - intros Hs Hp.
    assert (Hr : ~ passes (first_payload (pre ++ r :: later)) r)
      by (by intros [_ ?]).
    rewrite (validate_stop pre later r Hpre Hr).
    rewrite (validate_stop pre [] r); [|by rewrite Hcut..].
    by rewrite bool_decide_eq_true_2.
Qed.
End ValidateFacts.

Lemma validate_sample_mismatch :
  @validate Sample.codes
    [Sample.endorsed "peer1" Sample.OK; Sample.endorsed "peer2" Sample.DIFF;
     Sample.denied "peer3"] =
  Some (@EndorsementMismatchError Sample.codes).
Proof. reflexivity. Qed.

Lemma validate_first_offender_wins_witness :
  @validate Sample.codes
    [Sample.endorsed "peer1" Sample.OK; Sample.denied "peer2";
     Sample.endorsed "peer3" Sample.DIFF] =
    Some (PeerRejection (Sample.denied "peer2")) /\
  @validate Sample.codes
    [Sample.endorsed "peer1" Sample.OK; Sample.endorsed "peer2" Sample.DIFF;
     Sample.denied "peer3"] =
    Some (@EndorsementMismatchError Sample.codes) /\
  @validate Sample.codes
    [Sample.endorsed "peer1" Sample.OK; Sample.endorsed "peer2" Sample.OK] =
    None.
Proof.
  split; [|split].
  - refine (proj1 (proj1 (proj1
      (@validate_first_offender_wins Sample.codes _)
      [Sample.endorsed "peer1" Sample.OK] (Sample.denied "peer2")
      [Sample.endorsed "peer3" Sample.DIFF] eq_refl _) _)).
    + repeat constructor.
    + unfold succeeded. simpl. lia.
  - refine (proj1 (proj2 (proj1
      (@validate_first_offender_wins Sample.codes _)
      [Sample.endorsed "peer1" Sample.OK] (Sample.endorsed "peer2" Sample.DIFF)
      [Sample.denied "peer3"] eq_refl _) _ _)).
    + repeat constructor.
    + reflexivity.
    + simpl. discriminate.
  - apply (proj2 (@validate_first_offender_wins Sample.codes _)).
    repeat constructor.
Defined.

(** ** Dispatch *)

Section Dispatch.
Context `{Codes} `{Externals}.

Lemma delegate_continuation (next : option Handler) (rc : RequestContext)
    (cc : ClientContext) :
  delegate (continuation next cc) rc = run next rc cc.
Proof. by destruct next. Qed.

Lemma Handle_stage (k : Stage) (next : option Handler) (rc : RequestContext)
    (cc : ClientContext) :
  Handle (stage k next) rc cc =
    match k with
    | TargetResolution =>
        ProposalProcessorHandler_Handle (continuation next cc) rc cc
    | Endorsement => EndorsementHandler_Handle (continuation next cc) rc cc
    | Validation =>
        EndorsementValidationHandler_Handle (continuation next cc) rc cc
    | CommitAndConfirm => CommitTxHandler_Handle (continuation next cc) rc cc
    end.
Proof. by destruct k. Qed.

Lemma length_eqb_0 {A} (l : list A) :
  (length l =? 0)%nat = bool_decide (l = []).
Proof. by destruct l. Qed.
End Dispatch.

(** ** C10: no responses *)

Section ValidationStage.
Context `{Codes} `{Externals}.

(** C10. For the empty list of responses [validate] returns no error, and the
    endorsement-validation stage hands the request context, unchanged, to its
    next handler. *)
Theorem validation_accepts_no_responses (next : option Handler)
    (rc : RequestContext) (cc : ClientContext) :
  Responses (Response rc) = [] ->
  validate (Responses (Response rc)) = None /\
  Handle (EndorsementValidationHandler next) rc cc = run next rc cc.
Proof.
  intros Hrs.
  change (Handle (EndorsementValidationHandler next) rc cc)
    with (EndorsementValidationHandler_Handle (continuation next cc) rc cc).
  unfold EndorsementValidationHandler_Handle. rewrite Hrs.
  split; [reflexivity|]. apply delegate_continuation.
Qed.
End ValidationStage.

Lemma validation_accepts_no_responses_witness :
  Responses (Response (Sample.fresh ["peer1"] 0)) = [] /\
  @Handle Sample.codes Sample.externals (EndorsementValidationHandler None)
    (Sample.fresh ["peer1"] 0) Sample.client =
  mkResult Returned (Sample.fresh ["peer1"] 0) [].
Proof.
  split; [reflexivity|].
  exact (proj2 (@validation_accepts_no_responses Sample.codes Sample.externals
                  None (Sample.fresh ["peer1"] 0) Sample.client eq_refl)).
Defined.

(** ** C4, C6, C9: the endorsement stage *)

Section EndorsementStage.
Context `{Codes} `{Externals}.


(** C6. When header and proposal are created and sending the proposal fails,
    the stage returns with the send error, having recorded the proposal and
    its transaction identifier in the response. *)
Theorem endorsement_keeps_proposal_when_send_fails (next : option Handler)
    (rc : RequestContext) (cc : ClientContext) (txh : fab.TransactionHeader)
    (p : fab.TransactionProposal)
    (resps : list fab.TransactionProposalResponse) (err : error) :
  Targets (Opts rc) <> [] ->
  fab.CreateTransactionHeader (Transactor cc) = inl txh ->
  txn_CreateChaincodeInvokeProposal txh (invoke_request rc) = inl p ->
  fab.SendTransactionProposal (Transactor cc) p
    (peer.PeersToTxnProcessors (Targets (Opts rc))) = (resps, Some err) ->
  let r := Handle (EndorsementHandler next) rc cc in
  r = mkResult Returned
        (set_Error err
           (set_TransactionID (fab.TxnID p) (set_Proposal (Some p) rc)))
        [CreateTransactionHeader_call;
         CreateChaincodeInvokeProposal_call txh (invoke_request rc);
         SendTransactionProposal_call p
           (peer.PeersToTxnProcessors (Targets (Opts rc)))] /\
  Proposal (Response (final r)) = Some p /\
  TransactionID (Response (final r)) = fab.TxnID p /\
  Error (final r) = Some err.
Proof.
  intros Ht Hh Hp Hs r.
  assert (Hr : r = mkResult Returned
        (set_Error err
           (set_TransactionID (fab.TxnID p) (set_Proposal (Some p) rc)))
        [CreateTransactionHeader_call;
         CreateChaincodeInvokeProposal_call txh (invoke_request rc);
         SendTransactionProposal_call p
           (peer.PeersToTxnProcessors (Targets (Opts rc)))]).
  { subst r.
    change (Handle (EndorsementHandler next) rc cc)
      with (EndorsementHandler_Handle (continuation next cc) rc cc).
    unfold EndorsementHandler_Handle, createAndSendTransactionProposal.
    rewrite length_eqb_0, bool_decide_eq_false_2 by exact Ht.
    rewrite Hh. fold (invoke_request rc). rewrite Hp, Hs. reflexivity. }
  rewrite Hr. done.
Qed.

(** When no proposal is created, the stage dereferences the nil proposal:
    it panics, and the terminal error is left as it was. *)
Lemma endorsement_without_proposal (next : option Handler)
    (rc : RequestContext) (cc : ClientContext) :
  Targets (Opts rc) <> [] ->
  ((exists err, fab.CreateTransactionHeader (Transactor cc) = inr err) \/
   (exists txh err,
      fab.CreateTransactionHeader (Transactor cc) = inl txh /\
      txn_CreateChaincodeInvokeProposal txh (invoke_request rc) = inr err)) ->
  let r := Handle (EndorsementHandler next) rc cc in
  exit r = Panicked /\ Error (final r) = Error rc.
Proof.
  intros Ht Hfail r. subst r.
  change (Handle (EndorsementHandler next) rc cc)
    with (EndorsementHandler_Handle (continuation next cc) rc cc).
  unfold EndorsementHandler_Handle, createAndSendTransactionProposal.
  rewrite length_eqb_0, bool_decide_eq_false_2 by exact Ht.
  fold (invoke_request rc).
  destruct Hfail as [[err Hh]|(txh & err & Hh & Hp)].
  - by rewrite Hh.
  - by rewrite Hh, Hp.
Qed.
End EndorsementStage.


Lemma endorsement_keeps_proposal_when_send_fails_witness :
  let cc := mkClientContext Sample.selection Sample.transactor_send_fails
              Sample.events in
  let r := @Handle Sample.codes Sample.externals
             (EndorsementHandler (Some (EndorsementValidationHandler None)))
             (Sample.fresh ["peer1"] 0) cc in
  Proposal (Response (final r)) = Some (fab.mkTransactionProposal "tx1" []) /\
  TransactionID (Response (final r)) = "tx1" /\
  Error (final r) = Some (ErrorsNew "connection refused").
Proof.
  intros cc r.
  refine (proj2 (@endorsement_keeps_proposal_when_send_fails Sample.codes
                   Sample.externals
                   (Some (EndorsementValidationHandler None))
                   (Sample.fresh ["peer1"] 0) cc
                   (fab.mkTransactionHeader "tx1")
                   (fab.mkTransactionProposal "tx1" []) []
                   (ErrorsNew "connection refused") _ eq_refl eq_refl eq_refl)).
  discriminate.
Defined.

(** C9. A transactor that cannot create a header (or a header from which no
    proposal can be created), with one target given: [Handle] does not return
    with the terminal error set; it panics on the nil proposal after the
    calls made so far, and the error field is still unset. *)
Theorem endorsement_panics_without_proposal :
  let r1 := @Handle Sample.codes Sample.externals (EndorsementHandler None)
              (Sample.fresh ["peer1"] 0)
              (mkClientContext Sample.selection
                 Sample.transactor_without_header Sample.events) in
  let r2 := @Handle Sample.codes Sample.externals (EndorsementHandler None)
              (Sample.fresh ["peer1"] 0)
              (mkClientContext Sample.selection
                 Sample.transactor_with_empty_header Sample.events) in
  (exit r1 = Panicked /\ Error (final r1) = None /\
   calls r1 = [CreateTransactionHeader_call]) /\
  (exit r2 = Panicked /\ Error (final r2) = None /\
   calls r2 =
     [CreateTransactionHeader_call;
      CreateChaincodeInvokeProposal_call (fab.mkTransactionHeader "")
        (invoke_request (Sample.fresh ["peer1"] 0))]).
Proof. vm_compute. repeat split. Qed.

(** ** C5: the target-resolution stage *)

Section TargetResolutionStage.
Context `{Codes} `{Externals}.

End TargetResolutionStage.


(** ** C2, C7: the commit stage *)

Section CommitStage.
Context `{Codes} `{Externals}.

(** The commit stage, path by path, once registration has succeeded. *)
Lemma commit_registered (next : option Handler) (rc : RequestContext)
    (cc : ClientContext) (reg : fab.Registration) (ch : Chan) :
  fab.RegisterTxStatusEvent (EventService cc) (TransactionID (Response rc)) =
    inl (reg, ch) ->
  Handle (CommitTxHandler next) rc cc =
    after [RegisterTxStatusEvent_call (TransactionID (Response rc))]
      (deferred (Unregister_call reg)
         match fab.CreateTransaction (Transactor cc) (transaction_request rc) with
         | inr err =>
             mkResult Returned
               (set_Error (CommitFailure (WithMessage err "CreateTransaction failed")) rc)
               [CreateTransaction_call (transaction_request rc)]
         | inl tx =>
             after [CreateTransaction_call (transaction_request rc);
                    SendTransaction_call tx]
               match fab.SendTransaction (Transactor cc) tx with
               | inr err =>
                   returned
                     (set_Error
                        (CommitFailure (WithMessage err "SendTransaction failed"))
                        rc)
               | inl _ =>
                   match go_select ch (Ctx rc) with
                   | Recv_statusNotifier txStatus =>
                       if bool_decide
                            (fab.TxValidationCode txStatus = TxValidationCode_VALID)
                       then run next
                              (set_TxValidationCode
                                 (fab.TxValidationCode txStatus) rc) cc
                       else returned
                              (set_Error
                                 (InvalidOutcome (fab.TxValidationCode txStatus))
                                 (set_TxValidationCode
                                    (fab.TxValidationCode txStatus) rc))
                   | Recv_Done => returned (set_Error ConfirmationTimeout rc)
                   | NoneReady => blocked rc
                   end
               end
         end).
Proof.
  intros Hreg.
  change (Handle (CommitTxHandler next) rc cc)
    with (CommitTxHandler_Handle (continuation next cc) rc cc).
  unfold CommitTxHandler_Handle, createAndSendTransaction.
  rewrite Hreg. fold (transaction_request rc).
  do 2 f_equal.
  destruct (fab.CreateTransaction (Transactor cc) (transaction_request rc))
    as [tx|err]; [|reflexivity].
  destruct (fab.SendTransaction (Transactor cc) tx) as [resp|err];
    [|reflexivity].
  f_equal.
  destruct (go_select ch (Ctx rc)) as [txStatus| |]; try reflexivity.
  destruct (Z.eqb_spec (fab.TxValidationCode txStatus) TxValidationCode_VALID)
    as [E|E]; simpl.
  - rewrite bool_decide_eq_true_2 by exact E. apply delegate_continuation.
  - by rewrite bool_decide_eq_false_2.
Qed.


(** C2. The first call of the commit stage is the registration for the
    transaction identifier, so that a broadcast, by the stage or behind it,
    has the registration before it. If it fails, nothing else is called. If it
    succeeds and the stage comes to an end, the calls are: the registration;
    the stage's own calls on the transactor (creating the transaction and,
    if that worked, broadcasting it); the calls of the next handler, if it
    ran; and, last, the one release of the registration. *)
Theorem commit_registers_first_unregisters_once (next : option Handler)
    (rc : RequestContext) (cc : ClientContext) :
  let r := Handle (CommitTxHandler next) rc cc in
  let registered := RegisterTxStatusEvent_call (TransactionID (Response rc)) in
  (forall before c rest,
     calls r = before ++ c :: rest -> is_broadcast c = true ->
     exists before', before = registered :: before') /\
  (forall err,
     fab.RegisterTxStatusEvent (EventService cc) (TransactionID (Response rc)) =
       inr err ->
     r = mkResult Returned (set_Error (RegistrationFailure err) rc) [registered])
  /\
  (forall reg ch,
     fab.RegisterTxStatusEvent (EventService cc) (TransactionID (Response rc)) =
       inl (reg, ch) ->
     exit r <> Blocked ->
     exists own nxt,
       calls r = registered :: own ++ nxt ++ [Unregister_call reg] /\
       (own = [CreateTransaction_call (transaction_request rc)] \/
        exists tx, own = [CreateTransaction_call (transaction_request rc);
                          SendTransaction_call tx]) /\
       (nxt = [] \/ exists rc', nxt = calls (run next rc' cc)) /\
       (next = None ->
        length (List.filter is_Unregister (calls r)) = 1%nat)).
Proof.
  intros r registered. split; [|split].
  - intros before c rest Hcalls Hc. subst r.
    change (Handle (CommitTxHandler next) rc cc)
      with (CommitTxHandler_Handle (continuation next cc) rc cc) in Hcalls.
    unfold CommitTxHandler_Handle, after in Hcalls. simpl in Hcalls.
    destruct before as [|c0 before']; simpl in Hcalls;
      injection Hcalls as Hfirst _.
    + by rewrite <- Hfirst in Hc.
    + exists before'. by rewrite <- Hfirst.
  - intros err Hreg. subst r.
    change (Handle (CommitTxHandler next) rc cc)
      with (CommitTxHandler_Handle (continuation next cc) rc cc).
    unfold CommitTxHandler_Handle. by rewrite Hreg.
  - intros reg ch Hreg. subst r.
    rewrite (commit_registered next rc cc reg ch Hreg).
    destruct (fab.CreateTransaction (Transactor cc) (transaction_request rc))
      as [tx|err].
    2: { intros _. exists [CreateTransaction_call (transaction_request rc)], [].
         repeat split; auto. }
    destruct (fab.SendTransaction (Transactor cc) tx) as [resp|err].
    2: { intros _.
         exists [CreateTransaction_call (transaction_request rc);
                 SendTransaction_call tx], [].
         repeat split; eauto. }
    destruct (go_select ch (Ctx rc)) as [txStatus| |].
    + case_bool_decide.
      * unfold after, deferred; simpl.
        destruct (exit (run next _ cc)) eqn:Hexit; simpl; try done; intros _.
        all: exists [CreateTransaction_call (transaction_request rc);
                     SendTransaction_call tx],
               (calls (run next (set_TxValidationCode
                                   (fab.TxValidationCode txStatus) rc) cc)).
        all: repeat split; eauto.
        all: by intros ->.
      * intros _.
        exists [CreateTransaction_call (transaction_request rc);
                SendTransaction_call tx], [].
        repeat split; eauto.
    + intros _.
      exists [CreateTransaction_call (transaction_request rc);
              SendTransaction_call tx], [].
      repeat split; eauto.
    + intros Hexit. by destruct Hexit.
Qed.
End CommitStage.


Lemma commit_registers_first_unregisters_once_witness :
  (@Handle Sample.codes Sample.externals (CommitTxHandler None)
     (Sample.endorsed_context 0)
     (mkClientContext Sample.selection Sample.transactor Sample.events_fail) =
   mkResult Returned
     (set_Error (RegistrationFailure (ErrorsNew "event hub disconnected"))
        (Sample.endorsed_context 0))
     [RegisterTxStatusEvent_call "tx1"]) /\
  (exists own nxt,
     calls (@Handle Sample.codes Sample.externals (CommitTxHandler None)
              (Sample.endorsed_context 2)
              (mkClientContext Sample.selection
                 Sample.transactor_broadcast_fails Sample.events)) =
       RegisterTxStatusEvent_call "tx1" :: own ++ nxt ++ [Unregister_call 7] /\
     (own = [CreateTransaction_call
               (transaction_request (Sample.endorsed_context 2))] \/
      exists tx, own = [CreateTransaction_call
                          (transaction_request (Sample.endorsed_context 2));
                        SendTransaction_call tx]) /\
     (nxt = [] \/
      exists rc', nxt =
        calls (@run Sample.codes Sample.externals None rc'
                 (mkClientContext Sample.selection
                    Sample.transactor_broadcast_fails Sample.events))) /\
     (@None Handler = None ->
      length (List.filter is_Unregister
                (calls (@Handle Sample.codes Sample.externals
                          (CommitTxHandler None) (Sample.endorsed_context 2)
                          (mkClientContext Sample.selection
                             Sample.transactor_broadcast_fails Sample.events))))
      = 1%nat)).
Proof.
  split.
  - exact (proj1 (proj2 (@commit_registers_first_unregisters_once Sample.codes
                    Sample.externals None (Sample.endorsed_context 0)
                    (mkClientContext Sample.selection Sample.transactor
                       Sample.events_fail)))
             (ErrorsNew "event hub disconnected") eq_refl).
  - refine (proj2 (proj2 (@commit_registers_first_unregisters_once Sample.codes
                     Sample.externals None (Sample.endorsed_context 2)
                     (mkClientContext Sample.selection
                        Sample.transactor_broadcast_fails Sample.events)))
              7%nat 3%nat eq_refl _).
    vm_compute. discriminate.
Defined.

(** ** C8: short circuit *)

Section ShortCircuit.
Context `{Codes} `{Externals}.

Lemma final_after (cs : list Call) (r : Result) : final (after cs r) = final r.
Proof. reflexivity. Qed.

Lemma final_deferred (c : Call) (r : Result) : final (deferred c r) = final r.
Proof. unfold deferred. by destruct (exit r). Qed.

(** Every stage either ends by itself, with a result in which its [next]
    plays no part, or runs [next] on a request context whose error field it
    has not touched, and leaves the request context as [next] left it. *)
Lemma stage_stops_or_delegates (k : Stage) (rc : RequestContext)
    (cc : ClientContext) :
  (forall next, Handle (stage k next) rc cc = Handle (stage k None) rc cc) \/
  (exists rc' (wrap : Result -> Result),
     Error rc' = Error rc /\
     (forall r, final (wrap r) = final r) /\
     forall next, Handle (stage k next) rc cc = wrap (run next rc' cc)).
Proof.
  destruct k.
  - (* target resolution *)
    destruct (decide (Targets (Opts rc) = [])) as [Ht|Ht].
    + destruct (fab.GetEndorsersForChaincode (Selection cc)
                  [ChaincodeID (Request rc)]
                  match SelectionFilter rc with
                  | Some filter => [] ++ [WithPeerFilter filter]
                  | None => []
                  end) as [endorsers [err|]] eqn:Hsel.
      * left. intros next. rewrite !Handle_stage.
        unfold ProposalProcessorHandler_Handle.
        by rewrite length_eqb_0, bool_decide_eq_true_2, Hsel.
      * right. eexists (set_Targets endorsers rc), (after _).
        split; [reflexivity|]. split; [reflexivity|].
        intros next. rewrite Handle_stage.
        unfold ProposalProcessorHandler_Handle.
        rewrite length_eqb_0, bool_decide_eq_true_2, Hsel by exact Ht.
        by rewrite delegate_continuation.
    + right. exists rc, (fun r => r). split; [reflexivity|].
      split; [reflexivity|].
      intros next. rewrite Handle_stage.
      unfold ProposalProcessorHandler_Handle.
      rewrite length_eqb_0, bool_decide_eq_false_2 by exact Ht.
      apply delegate_continuation.
  - (* endorsement *)
    destruct (decide (Targets (Opts rc) = [])) as [Ht|Ht].
    { left. intros next. rewrite !Handle_stage.
      unfold EndorsementHandler_Handle. by rewrite Ht. }
    destruct (createAndSendTransactionProposal (Transactor cc) (Request rc)
                (peer.PeersToTxnProcessors (Targets (Opts rc))))
      as [cs [[resps [p|]] [err|]]] eqn:Hsend.
    1, 3, 4: left; intros next; rewrite !Handle_stage;
      unfold EndorsementHandler_Handle;
      by rewrite length_eqb_0, bool_decide_eq_false_2, Hsend.
    right. eexists _, (after cs). split; [|split; [reflexivity|]].
    2: { intros next. rewrite Handle_stage.
         unfold EndorsementHandler_Handle.
         rewrite length_eqb_0, bool_decide_eq_false_2, Hsend by exact Ht.
         by rewrite delegate_continuation. }
    by destruct resps.
  - (* endorsement validation *)
    destruct (validate (Responses (Response rc))) as [err|] eqn:Hv.
    + left. intros next. rewrite !Handle_stage.
      unfold EndorsementValidationHandler_Handle. by rewrite Hv.
    + right. exists rc, (fun r => r). split; [reflexivity|].
      split; [reflexivity|].
      intros next. rewrite Handle_stage.
      unfold EndorsementValidationHandler_Handle. rewrite Hv.
      apply delegate_continuation.
  - (* commit *)
    destruct (fab.RegisterTxStatusEvent (EventService cc)
                (TransactionID (Response rc))) as [[reg ch]|err] eqn:Hreg.
    2: { left. intros next. rewrite !Handle_stage.
         unfold CommitTxHandler_Handle. by rewrite Hreg. }
    destruct (fab.CreateTransaction (Transactor cc) (transaction_request rc))
      as [tx|err] eqn:Hct.
    2: { left. intros next. unfold stage.
         by rewrite !(commit_registered _ rc cc reg ch Hreg), Hct. }
    destruct (fab.SendTransaction (Transactor cc) tx) as [resp|err] eqn:Hst.
    2: { left. intros next. unfold stage.
         by rewrite !(commit_registered _ rc cc reg ch Hreg), Hct, Hst. }
    destruct (go_select ch (Ctx rc)) as [txStatus| |] eqn:Hsel.
    2, 3: left; intros next; unfold stage;
      by rewrite !(commit_registered _ rc cc reg ch Hreg), Hct, Hst, Hsel.
    destruct (decide (fab.TxValidationCode txStatus = TxValidationCode_VALID))
      as [E|E].
    2: { left. intros next. unfold stage.
         rewrite !(commit_registered _ rc cc reg ch Hreg), Hct, Hst, Hsel.
         by rewrite bool_decide_eq_false_2. }
    right.
    exists (set_TxValidationCode (fab.TxValidationCode txStatus) rc),
      (fun r =>
         after [RegisterTxStatusEvent_call (TransactionID (Response rc))]
           (deferred (Unregister_call reg)
              (after [CreateTransaction_call (transaction_request rc);
                      SendTransaction_call tx] r))).
    split; [reflexivity|]. split.
    + intros r. by rewrite final_after, final_deferred, final_after.
    + intros next. unfold stage.
      rewrite (commit_registered _ rc cc reg ch Hreg), Hct, Hst, Hsel.
      by rewrite bool_decide_eq_true_2.
Qed.

Lemma chain_app (ks1 ks2 : list Stage) (tail : option Handler) :
  chain (ks1 ++ ks2) tail = chain ks1 (chain ks2 tail).
Proof. unfold chain. apply foldr_app. Qed.

Lemma chain_short_circuit (ks : list Stage) (tail : option Handler)
    (rc : RequestContext) (cc : ClientContext) :
  Error rc = None ->
  Error (final (run (chain ks None) rc cc)) <> None ->
  run (chain ks tail) rc cc = run (chain ks None) rc cc.
Proof.
  revert rc. induction ks as [|k ks IH]; intros rc Hclean Hset.
  - by destruct Hset.
  - simpl in *.
    destruct (stage_stops_or_delegates k rc cc)
      as [Hstop|(rc' & wrap & Herr & Hfinal & Hrun)].
    + by rewrite (Hstop (chain ks tail)), (Hstop (chain ks None)).
    + rewrite (Hrun (chain ks tail)), (Hrun (chain ks None)).
      rewrite (Hrun (chain ks None)), Hfinal in Hset.
      f_equal. apply IH; [congruence|exact Hset].
Qed.

(** C8. A stage that changes the terminal error field does not run its next
    handler: its result is the one it has with no next handler at all. Hence,
    in a chain of stages entered with no error set, once a prefix of the
    chain has set the error, the result is that of the prefix alone: no later
    stage and no handler behind the chain runs, and the error is the one the
    failing stage set. *)
Theorem stages_short_circuit :
  (forall (k : Stage) (next : option Handler) (rc : RequestContext)
          (cc : ClientContext),
     Error (final (Handle (stage k None) rc cc)) <> Error rc ->
     Handle (stage k next) rc cc = Handle (stage k None) rc cc) /\
  (forall (ks later : list Stage) (tail : option Handler)
          (rc : RequestContext) (cc : ClientContext),
     Error rc = None ->
     Error (final (run (chain ks None) rc cc)) <> None ->
     run (chain (ks ++ later) tail) rc cc = run (chain ks None) rc cc).
Proof.
  split.
  - intros k next rc cc Hset.
    destruct (stage_stops_or_delegates k rc cc)
      as [Hstop|(rc' & wrap & Herr & Hfinal & Hrun)]; [apply Hstop|].
    destruct Hset. by rewrite (Hrun None), Hfinal.
  - intros ks later tail rc cc Hclean Hset.
    rewrite chain_app. by apply chain_short_circuit.
Qed.
End ShortCircuit.

Lemma stages_short_circuit_witness :
  @Handle Sample.codes Sample.externals
    (stage Validation (Some (CommitTxHandler None)))
    Sample.disagreeing_context Sample.client =
  mkResult Returned
    (set_Error
       (WithMessage (@EndorsementMismatchError Sample.codes)
          "endorsement validation failed")
       Sample.disagreeing_context) [] /\
  @run Sample.codes Sample.externals
    (chain [TargetResolution; Endorsement; Validation; CommitAndConfirm] None)
    (Sample.fresh [] 0)
    (mkClientContext Sample.selection_fails Sample.transactor Sample.events) =
  mkResult Returned
    (set_Error (SelectionFailure (ErrorsNew "no chaincode deployed"))
       (Sample.fresh [] 0))
    [GetEndorsersForChaincode_call ["mycc"] []].
Proof.
  split.
  - refine (eq_trans
              (proj1 (@stages_short_circuit Sample.codes Sample.externals)
                 Validation (Some (CommitTxHandler None))
                 Sample.disagreeing_context Sample.client _) _).
    + vm_compute. discriminate.
    + reflexivity.
  - refine (eq_trans
              (proj2 (@stages_short_circuit Sample.codes Sample.externals)
                 [TargetResolution] [Endorsement; Validation; CommitAndConfirm]
                 None (Sample.fresh [] 0)
                 (mkClientContext Sample.selection_fails Sample.transactor
                    Sample.events) eq_refl _) _).
    + vm_compute. discriminate.
    + reflexivity.
Defined.

(** ** C3: the chain builder *)

Lemma getNext_head (next : list Handler) : getNext next = head next.
Proof. by destruct next. Qed.

(** C3, as the code has it. Both pipelines carry a signature validation stage
    behind endorsement validation: the query pipeline is target resolution,
    endorsement, endorsement validation, signature validation, then the first
    of the caller's handlers; the execute pipeline has the commit stage
    between signature validation and the first of the caller's handlers.
    Only the first supplied handler is chained, and with none supplied the
    last stage has no next handler. *)
Theorem pipelines_built (next : list Handler) :
  NewQueryHandler next =
    ProposalProcessorHandler
      (Some (EndorsementHandler
               (Some (EndorsementValidationHandler
                        (Some (SignatureValidationHandler (head next))))))) /\
  NewExecuteHandler next =
    ProposalProcessorHandler
      (Some (EndorsementHandler
               (Some (EndorsementValidationHandler
                        (Some (SignatureValidationHandler
                                 (Some (CommitTxHandler (head next))))))))) /\
  (forall h rest, next = h :: rest ->
     NewQueryHandler next = NewQueryHandler [h] /\
     NewExecuteHandler next = NewExecuteHandler [h]).
Proof.
  unfold NewQueryHandler, NewExecuteHandler, NewProposalProcessorHandler,
    NewEndorsementHandler, NewEndorsementValidationHandler,
    NewSignatureValidationHandler, NewCommitHandler.
  rewrite !getNext_head. simpl.
  split; [reflexivity|]. split; [reflexivity|].
  by intros h rest ->.
Qed.

Lemma pipelines_built_witness :
  NewQueryHandler [CommitTxHandler None; EndorsementHandler None] =
    NewQueryHandler [CommitTxHandler None] /\
  NewExecuteHandler [CommitTxHandler None; EndorsementHandler None] =
    NewExecuteHandler [CommitTxHandler None].
Proof.
  exact (proj2 (proj2 (pipelines_built
                          [CommitTxHandler None; EndorsementHandler None]))
           (CommitTxHandler None) [EndorsementHandler None] eq_refl).
Defined.

(** The pipelines built are not the ones without a signature validation
    stage. *)
Lemma pipelines_not_as_specified :
  NewQueryHandler [] <> query_pipeline_as_specified [] /\
  NewExecuteHandler [] <> execute_pipeline_as_specified [].
Proof. split; discriminate. Qed.

(** ** The handlers on the sample collaborators *)

(** Two targets that endorse with the same payload, and a valid outcome: the
    execute pipeline returns without error, with the payload and the
    validation code recorded, the registration made before the broadcast and
    released once. *)
Example execute_with_agreeing_endorsers :
  let r := @Handle Sample.codes Sample.externals (NewExecuteHandler [])
             (Sample.fresh ["peer1"; "peer2"] 0) Sample.client in
  exit r = Returned /\ Error (final r) = None /\
  Payload (Response (final r)) = Sample.OK /\
  TxValidationCode (Response (final r)) = 0 /\
  List.filter (fun c => is_Unregister c || is_broadcast c) (calls r) =
    [SendTransaction_call (fab.mkTransaction []); Unregister_call 7] /\
  calls r !! 3%nat = Some (RegisterTxStatusEvent_call "tx1").
Proof. vm_compute. repeat split. Qed.

(** The stages do not look at the error field when they are entered: entered
    with an error already set, the validation stage runs and replaces it. *)
Example validation_entered_with_error :
  Error (final (@Handle Sample.codes Sample.externals
                  (EndorsementValidationHandler None)
                  (set_Error (ErrorsNew "earlier")
                     Sample.disagreeing_context) Sample.client)) =
  Some (WithMessage (@EndorsementMismatchError Sample.codes)
          "endorsement validation failed").
Proof. reflexivity. Qed.

(** * Further properties of the handlers *)

(** ** More on [validate] *)

Section ValidateMore.
Context `{Codes}.

Lemma validate_from_S_app (n : nat) (a1 : list byte)
    (rs1 rs2 : list fab.TransactionProposalResponse) (e : error) :
  validate_from (S n) a1 rs1 = Some e ->
  validate_from (S n) a1 (rs1 ++ rs2) = Some e.
Proof.
  revert n. induction rs1 as [|r rs1 IH]; intros n; simpl; [done|].
  destruct (negb _); [done|].
  destruct (negb _); [done|]. apply IH.
Qed.

(** X1. Responses that come after do not change a rejection: an error found
    in a list of responses is the error found in every extension of the list,
    and a list that is accepted has only accepted prefixes. *)
Theorem validate_extension (rs1 rs2 : list fab.TransactionProposalResponse) :
  (forall e, validate rs1 = Some e -> validate (rs1 ++ rs2) = Some e) /\
  (validate (rs1 ++ rs2) = None -> validate rs1 = None).
Proof.
  assert (Hext : forall e,
            validate rs1 = Some e -> validate (rs1 ++ rs2) = Some e).
  { intros e. destruct rs1 as [|r0 rs1]; [done|].
    simpl. rewrite !validate_cons.
    case_bool_decide; [apply validate_from_S_app|done]. }
  split; [exact Hext|].
  intros Hall. destruct (validate rs1) as [e|] eqn:Hv; [|done].
  by rewrite (Hext e eq_refl) in Hall.
Qed.

Lemma validate_from_S_Some (n : nat) (a1 : list byte)
    (rs : list fab.TransactionProposalResponse) (e : error) :
  validate_from (S n) a1 rs = Some e ->
  exists r, r ∈ rs /\
    ((~ succeeded r /\ e = PeerRejection r) \/
     (succeeded r /\ payload_of r <> a1 /\ e = EndorsementMismatchError)).
Proof.
  revert n. induction rs as [|r rs IH]; intros n; simpl; [done|].
  destruct (Z.eqb_spec (pb.Status (pb.GetResponse (fab.ProposalResponse r)))
              Status_SUCCESS) as [Hs|Hs]; simpl.
  - destruct (Z.eqb_spec (bytes_Compare a1 (pb.Payload (pb.GetResponse
                (fab.ProposalResponse r)))) 0) as [E|E]; simpl.
    + intros Hv. destruct (IH _ Hv) as (r' & Hin & Hr').
      exists r'. split; [by right|exact Hr'].
    + intros [= <-]. exists r. split; [by left|]. right.
      split; [exact Hs|]. split; [|done].
      intros Hp. apply E, bytes_Compare_eq. by rewrite <- Hp.
  - intros [= <-]. exists r. split; [by left|]. by left.
Qed.

(** X2. Every error of [validate] has its cause in the list: either a
    response whose status is not success, and the error names that response's
    endorser, status and message; or the response at index 0 and a later one
    that both have success status and differ in payload. A single response is
    never a mismatch. *)
Theorem validate_error_cause (rs : list fab.TransactionProposalResponse)
    (e : error) :
  validate rs = Some e ->
  (exists r, r ∈ rs /\ ~ succeeded r /\ e = PeerRejection r) \/
  (exists r0 rest r,
     rs = r0 :: rest /\ r ∈ rest /\ succeeded r0 /\ succeeded r /\
     payload_of r <> payload_of r0 /\ e = EndorsementMismatchError).
Proof.
  destruct rs as [|r0 rest]; [done|].
  rewrite validate_cons. case_bool_decide as Hs0.
  - intros Hv.
    destruct (validate_from_S_Some _ _ _ _ Hv)
      as (r & Hin & [[Hs ->]|(Hs & Hp & ->)]).
    + left. exists r. split; [by right|done].
    + right. by exists r0, rest, r.
  - intros [= <-]. left. exists r0. split; [by left|done].
Qed.

Lemma validate_accepts_iff (rs : list fab.TransactionProposalResponse) :
  validate rs = None <-> exists p, Forall (passes p) rs.
Proof.
  rewrite validate_None. split; [by eexists|].
  intros [p Hall]. destruct rs as [|r0 rest]; [constructor|].
  simpl. by rewrite (proj2 (Forall_inv Hall)).
Qed.

(** X3. Whether a set of responses is accepted does not depend on the order
    in which they were collected (which error a rejected set gives does). *)
Theorem validate_accepts_any_order
    (rs rs' : list fab.TransactionProposalResponse) :
  rs ≡ₚ rs' -> validate rs = None -> validate rs' = None.
Proof.
  intros Hperm. rewrite !validate_accepts_iff.
  intros [p Hall]. exists p. by rewrite <- Hperm.
Qed.
End ValidateMore.

Lemma validate_extension_witness :
  @validate Sample.codes
    ([Sample.endorsed "peer1" Sample.OK; Sample.denied "peer2"] ++
     [Sample.endorsed "peer3" Sample.DIFF]) =
  Some (PeerRejection (Sample.denied "peer2")).
Proof.
  exact (proj1 (@validate_extension Sample.codes
                  [Sample.endorsed "peer1" Sample.OK; Sample.denied "peer2"]
                  [Sample.endorsed "peer3" Sample.DIFF])
           (PeerRejection (Sample.denied "peer2")) eq_refl).
Defined.

Lemma validate_error_cause_witness :
  (exists r,
     r ∈ [Sample.endorsed "peer1" Sample.OK; Sample.denied "peer2"] /\
     ~ @succeeded Sample.codes r /\
     PeerRejection (Sample.denied "peer2") = PeerRejection r) \/
  (exists r0 rest r,
     [Sample.endorsed "peer1" Sample.OK; Sample.denied "peer2"] = r0 :: rest /\
     r ∈ rest /\ @succeeded Sample.codes r0 /\ @succeeded Sample.codes r /\
     payload_of r <> payload_of r0 /\
     PeerRejection (Sample.denied "peer2") =
       @EndorsementMismatchError Sample.codes).
Proof.
  exact (@validate_error_cause Sample.codes
           [Sample.endorsed "peer1" Sample.OK; Sample.denied "peer2"]
           (PeerRejection (Sample.denied "peer2")) eq_refl).
Defined.

Lemma validate_accepts_any_order_witness :
  @validate Sample.codes
    [Sample.endorsed "peer2" Sample.OK; Sample.endorsed "peer1" Sample.OK] =
  None.
Proof.
  refine (@validate_accepts_any_order Sample.codes
            [Sample.endorsed "peer1" Sample.OK; Sample.endorsed "peer2" Sample.OK]
            [Sample.endorsed "peer2" Sample.OK; Sample.endorsed "peer1" Sample.OK]
            _ eq_refl).
  apply Permutation_swap.
Defined.

(** ** The endorsement stage when the proposal is sent *)

Section EndorsementMore.
Context `{Codes} `{Externals}.


Lemma Response_endorsed_by (p : fab.TransactionProposal)
    (resps : list fab.TransactionProposalResponse) (rc : RequestContext) :
  Proposal (Response (endorsed_by p resps rc)) = Some p /\
  TransactionID (Response (endorsed_by p resps rc)) = fab.TxnID p /\
  Responses (Response (endorsed_by p resps rc)) = resps /\
  TxValidationCode (Response (endorsed_by p resps rc)) =
    TxValidationCode (Response rc).
Proof. unfold endorsed_by. by destruct resps. Qed.

Lemma endorsement_sent (next : option Handler)
    (rc : RequestContext) (cc : ClientContext) (txh : fab.TransactionHeader)
    (p : fab.TransactionProposal)
    (resps : list fab.TransactionProposalResponse) :
  Targets (Opts rc) <> [] ->
  fab.CreateTransactionHeader (Transactor cc) = inl txh ->
  txn_CreateChaincodeInvokeProposal txh (invoke_request rc) = inl p ->
  fab.SendTransactionProposal (Transactor cc) p
    (peer.PeersToTxnProcessors (Targets (Opts rc))) = (resps, None) ->
  Handle (EndorsementHandler next) rc cc =
    after [CreateTransactionHeader_call;
           CreateChaincodeInvokeProposal_call txh (invoke_request rc);
           SendTransactionProposal_call p
             (peer.PeersToTxnProcessors (Targets (Opts rc)))]
      (run next (endorsed_by p resps rc) cc).
Proof.
  intros Ht Hh Hp Hs.
  change (Handle (EndorsementHandler next) rc cc)
    with (EndorsementHandler_Handle (continuation next cc) rc cc).
  unfold EndorsementHandler_Handle, createAndSendTransactionProposal.
  rewrite length_eqb_0, bool_decide_eq_false_2 by exact Ht.
  rewrite Hh. fold (invoke_request rc). rewrite Hp, Hs.
  rewrite <- delegate_continuation. by destruct resps.
Qed.

(** X4. When the header and the proposal are created and the proposal is
    sent without error, the stage makes these three calls, in this order,
    records the proposal, its identifier and the responses, takes the payload
    of the first response as the payload (and leaves the payload as it was
    when no response came back), leaves the error field alone, and runs its
    next handler. *)
Theorem endorsement_records_responses (next : option Handler)
    (rc : RequestContext) (cc : ClientContext) (txh : fab.TransactionHeader)
    (p : fab.TransactionProposal)
    (resps : list fab.TransactionProposalResponse) :
  Targets (Opts rc) <> [] ->
  fab.CreateTransactionHeader (Transactor cc) = inl txh ->
  txn_CreateChaincodeInvokeProposal txh (invoke_request rc) = inl p ->
  fab.SendTransactionProposal (Transactor cc) p
    (peer.PeersToTxnProcessors (Targets (Opts rc))) = (resps, None) ->
  Handle (EndorsementHandler next) rc cc =
    after [CreateTransactionHeader_call;
           CreateChaincodeInvokeProposal_call txh (invoke_request rc);
           SendTransactionProposal_call p
             (peer.PeersToTxnProcessors (Targets (Opts rc)))]
      (run next (endorsed_by p resps rc) cc) /\
  Payload (Response (endorsed_by p resps rc)) =
    match resps with
    | r0 :: _ => payload_of r0
    | [] => Payload (Response rc)
    end /\
  Error (endorsed_by p resps rc) = Error rc.
Proof.
  intros Ht Hh Hp Hs. split; [|by destruct resps].
  by apply endorsement_sent.
Qed.

(** X5. Endorsement followed by endorsement validation: the responses that
    are validated are the ones the transactor returned for this proposal. If
    they do not validate, the chain ends after the three calls of the
    endorsement stage with the validation error wrapped, and what the
    endorsement stage recorded stays recorded; otherwise the handler behind
    the validation stage runs. *)
Theorem endorsement_then_validation (next : option Handler)
    (rc : RequestContext) (cc : ClientContext) (txh : fab.TransactionHeader)
    (p : fab.TransactionProposal)
    (resps : list fab.TransactionProposalResponse) :
  Targets (Opts rc) <> [] ->
  fab.CreateTransactionHeader (Transactor cc) = inl txh ->
  txn_CreateChaincodeInvokeProposal txh (invoke_request rc) = inl p ->
  fab.SendTransactionProposal (Transactor cc) p
    (peer.PeersToTxnProcessors (Targets (Opts rc))) = (resps, None) ->
  Handle (EndorsementHandler (Some (EndorsementValidationHandler next))) rc cc =
    after [CreateTransactionHeader_call;
           CreateChaincodeInvokeProposal_call txh (invoke_request rc);
           SendTransactionProposal_call p
             (peer.PeersToTxnProcessors (Targets (Opts rc)))]
      match validate resps with
      | Some e =>
          returned
            (set_Error (WithMessage e "endorsement validation failed")
               (endorsed_by p resps rc))
      | None => run next (endorsed_by p resps rc) cc
      end.
Proof.
  intros Ht Hh Hp Hs.
  rewrite (endorsement_sent _ rc cc txh p resps Ht Hh Hp Hs).
  f_equal. unfold run at 1.
  change (Handle (EndorsementValidationHandler next) ?c cc)
    with (EndorsementValidationHandler_Handle (continuation next cc) c cc).
  unfold EndorsementValidationHandler_Handle.
  rewrite (proj1 (proj2 (proj2 (Response_endorsed_by p resps rc)))).
  destruct (validate resps); [done|apply delegate_continuation].
Qed.

End EndorsementMore.

Lemma endorsement_records_responses_witness :
  @Handle Sample.codes Sample.externals (EndorsementHandler None)
    (Sample.fresh ["peer1"; "peer2"] 0) Sample.client =
  mkResult Returned (Sample.endorsed_context 0)
    [CreateTransactionHeader_call;
     CreateChaincodeInvokeProposal_call (fab.mkTransactionHeader "tx1")
       (invoke_request (Sample.fresh ["peer1"; "peer2"] 0));
     SendTransactionProposal_call (fab.mkTransactionProposal "tx1" [])
       ["peer1"; "peer2"]].
Proof.
  refine (proj1 (@endorsement_records_responses Sample.codes Sample.externals
                   None (Sample.fresh ["peer1"; "peer2"] 0) Sample.client
                   (fab.mkTransactionHeader "tx1")
                   (fab.mkTransactionProposal "tx1" [])
                   [Sample.endorsed "peer1" Sample.OK;
                    Sample.endorsed "peer2" Sample.OK]
                   _ eq_refl eq_refl eq_refl)).
  discriminate.
Defined.

Lemma endorsement_then_validation_witness :
  let cc := mkClientContext Sample.selection Sample2.transactor_disagreeing
              Sample.events in
  let r := @Handle Sample.codes Sample.externals
             (EndorsementHandler
                (Some (EndorsementValidationHandler
                         (Some (CommitTxHandler None)))))
             (Sample.fresh ["peer1"; "peer2"] 0) cc in
  Error (final r) =
    Some (WithMessage (@EndorsementMismatchError Sample.codes)
            "endorsement validation failed") /\
  Payload (Response (final r)) = Sample.OK /\
  length (calls r) = 3%nat.
Proof.
  intros cc r. subst r.
  rewrite (@endorsement_then_validation Sample.codes Sample.externals
             (Some (CommitTxHandler None))
             (Sample.fresh ["peer1"; "peer2"] 0) cc
             (fab.mkTransactionHeader "tx1")
             (fab.mkTransactionProposal "tx1" [])
             [Sample.endorsed "peer1" Sample.OK;
              Sample.endorsed "peer2" Sample.DIFF]
             ltac:(discriminate) eq_refl eq_refl eq_refl).
  repeat split.
Defined.


(** ** The commit stage when the transaction cannot be sent *)

Section CommitMore.
Context `{Codes} `{Externals}.



Lemma after_deferred (cs : list Call) (c : Call) (r : Result) :
  after cs (deferred c r) = around cs [c] r.
Proof.
  unfold after, deferred, around.
  destruct r as [[] rc cs']; simpl; by rewrite ?app_nil_r.
Qed.

Lemma around_after (pre post cs : list Call) (r : Result) :
  around pre post (after cs r) = around (pre ++ cs) post r.
Proof. unfold around, after. simpl. by rewrite !app_assoc. Qed.

Lemma after_around (cs pre post : list Call) (r : Result) :
  after cs (around pre post r) = around (cs ++ pre) post r.
Proof. unfold around, after. simpl. by rewrite !app_assoc. Qed.

Lemma target_resolution_given (next : option Handler) (rc : RequestContext)
    (cc : ClientContext) :
  Targets (Opts rc) <> [] ->
  Handle (ProposalProcessorHandler next) rc cc = run next rc cc.
Proof.
  intros Ht.
  change (Handle (ProposalProcessorHandler next) rc cc)
    with (ProposalProcessorHandler_Handle (continuation next cc) rc cc).
  unfold ProposalProcessorHandler_Handle.
  rewrite length_eqb_0, bool_decide_eq_false_2 by exact Ht.
  apply delegate_continuation.
Qed.

End CommitMore.



(** ** What chains of stages never do *)

Section ChainInvariants.
Context `{Codes} `{Externals}.

Lemma same_request_refl (rc : RequestContext) : same_request rc rc.
Proof. by unfold same_request. Qed.

Lemma same_request_trans (rc1 rc2 rc3 : RequestContext) :
  same_request rc1 rc2 -> same_request rc2 rc3 -> same_request rc1 rc3.
Proof. unfold same_request. intros (-> & -> & ->) (-> & -> & ->). done. Qed.

Lemma around_nil (r : Result) : around [] [] r = r.
Proof.
  unfold around. destruct r as [[] rc cs]; simpl; by rewrite ?app_nil_r.
Qed.

Lemma after_around_nil (cs : list Call) (r : Result) :
  after cs r = around cs [] r.
Proof.
  unfold around, after. destruct r as [[] rc cs']; simpl; by rewrite ?app_nil_r.
Qed.

(** A stage either ends by itself or runs its next handler between calls of
    its own; either way it keeps the request, the context and the filter. *)
Lemma stage_outcome (k : Stage) (rc : RequestContext) (cc : ClientContext) :
  (exists r0,
     (forall next, Handle (stage k next) rc cc = r0) /\
     same_request rc (final r0) /\
     (exit r0 = Panicked -> k = Endorsement) /\
     (exit r0 = Blocked -> k = CommitAndConfirm) /\
     (k <> CommitAndConfirm ->
      Forall (fun c => is_commit_call c = false) (calls r0)) /\
     (Targets (Opts rc) <> [] -> Opts (final r0) = Opts rc)) \/
  (exists rc' pre post,
     same_request rc rc' /\
     (forall next,
        Handle (stage k next) rc cc = around pre post (run next rc' cc)) /\
     (k <> CommitAndConfirm ->
      Forall (fun c => is_commit_call c = false) pre /\ post = []) /\
     (Targets (Opts rc) <> [] -> Opts rc' = Opts rc)).
Proof.
  destruct k.
  - (* target resolution *)
    destruct (decide (Targets (Opts rc) = [])) as [Ht|Ht].
    + destruct (fab.GetEndorsersForChaincode (Selection cc)
                  [ChaincodeID (Request rc)]
                  match SelectionFilter rc with
                  | Some filter => [] ++ [WithPeerFilter filter]
                  | None => []
                  end) as [endorsers [err|]] eqn:Hsel.
      * left. eexists. split.
        { intros next. rewrite Handle_stage.
          unfold ProposalProcessorHandler_Handle.
          rewrite length_eqb_0, bool_decide_eq_true_2, Hsel by exact Ht.
          reflexivity. }
        simpl. unfold same_request. repeat split; try done. by repeat constructor.
      * right. eexists (set_Targets endorsers rc), _, [].
        split; [by unfold same_request|]. split.
        { intros next. rewrite Handle_stage.
          unfold ProposalProcessorHandler_Handle.
          rewrite length_eqb_0, bool_decide_eq_true_2, Hsel by exact Ht.
          rewrite delegate_continuation. apply after_around_nil. }
        split; [intros _; split; [by repeat constructor|done]|done].
    + right. exists rc, [], []. split; [by unfold same_request|]. split.
      { intros next. unfold stage.
        by rewrite target_resolution_given, around_nil. }
      split; [intros _; split; [constructor|done]|done].
  - (* endorsement *)
    destruct (decide (Targets (Opts rc) = [])) as [Ht|Ht].
    { left. eexists. split.
      { intros next. rewrite Handle_stage.
        unfold EndorsementHandler_Handle.
        rewrite length_eqb_0, bool_decide_eq_true_2 by exact Ht.
        reflexivity. }
      simpl. unfold same_request. repeat split; try done. }
    assert (Hcalls : Forall (fun c => is_commit_call c = false)
              (fst (createAndSendTransactionProposal (Transactor cc)
                      (Request rc)
                      (peer.PeersToTxnProcessors (Targets (Opts rc)))))).
    { unfold createAndSendTransactionProposal.
      destruct (fab.CreateTransactionHeader _); [|by repeat constructor].
      destruct (txn_CreateChaincodeInvokeProposal _ _);
        [|by repeat constructor].
      destruct (fab.SendTransactionProposal _ _ _).
      by repeat constructor. }
    destruct (createAndSendTransactionProposal (Transactor cc) (Request rc)
                (peer.PeersToTxnProcessors (Targets (Opts rc))))
      as [cs [[resps [p|]] [err|]]] eqn:Hsend; simpl in Hcalls.
    1, 3, 4: left; eexists; split;
      [ intros next; rewrite Handle_stage; unfold EndorsementHandler_Handle;
        rewrite length_eqb_0, bool_decide_eq_false_2, Hsend by exact Ht;
        reflexivity
      | simpl; rewrite app_nil_r; unfold same_request; repeat split; done ].
    right. eexists _, cs, []. split; [|split].
    2: { intros next. rewrite Handle_stage.
         unfold EndorsementHandler_Handle.
         rewrite length_eqb_0, bool_decide_eq_false_2, Hsend by exact Ht.
         rewrite delegate_continuation. apply after_around_nil. }
    + by destruct resps.
    + split; [intros _; by split|]. intros _. by destruct resps.
  - (* endorsement validation *)
    destruct (validate (Responses (Response rc))) as [err|] eqn:Hv.
    + left. eexists. split.
      { intros next. rewrite Handle_stage.
        unfold EndorsementValidationHandler_Handle. rewrite Hv.
        reflexivity. }
      simpl. unfold same_request. repeat split; done.
    + right. exists rc, [], []. split; [by unfold same_request|]. split.
      { intros next. rewrite Handle_stage.
        unfold EndorsementValidationHandler_Handle.
        by rewrite Hv, delegate_continuation, around_nil. }
      split; [intros _; split; [constructor|done]|done].
  - (* commit *)
    destruct (fab.RegisterTxStatusEvent (EventService cc)
                (TransactionID (Response rc))) as [[reg ch]|err] eqn:Hreg.
    2: { left. eexists. split.
         { intros next. rewrite Handle_stage.
           unfold CommitTxHandler_Handle. rewrite Hreg. reflexivity. }
         simpl. unfold same_request. repeat split; done. }
    destruct (fab.CreateTransaction (Transactor cc) (transaction_request rc))
      as [tx|err] eqn:Hct.
    2: { left. eexists. split.
         { intros next. unfold stage.
           rewrite (commit_registered _ rc cc reg ch Hreg), Hct.
           reflexivity. }
         simpl. unfold same_request. repeat split; done. }
    destruct (fab.SendTransaction (Transactor cc) tx) as [resp|err] eqn:Hst.
    2: { left. eexists. split.
         { intros next. unfold stage.
           rewrite (commit_registered _ rc cc reg ch Hreg), Hct, Hst.
           reflexivity. }
         simpl. unfold same_request. repeat split; done. }
    destruct (go_select ch (Ctx rc)) as [txStatus| |] eqn:Hsel.
    2, 3: left; eexists; split;
      [ intros next; unfold stage;
        rewrite (commit_registered _ rc cc reg ch Hreg), Hct, Hst, Hsel;
        reflexivity
      | simpl; unfold same_request; repeat split; done ].
    destruct (decide (fab.TxValidationCode txStatus = TxValidationCode_VALID))
      as [E|E].
    2: { left. eexists. split.
         { intros next. unfold stage.
           rewrite (commit_registered _ rc cc reg ch Hreg), Hct, Hst, Hsel.
           rewrite bool_decide_eq_false_2 by exact E. reflexivity. }
         simpl. unfold same_request. repeat split; done. }
    right.
    eexists (set_TxValidationCode (fab.TxValidationCode txStatus) rc), _, _.
    split; [by unfold same_request|]. split; [|done].
    intros next. unfold stage.
    rewrite (commit_registered _ rc cc reg ch Hreg), Hct, Hst, Hsel.
    rewrite bool_decide_eq_true_2 by exact E.
    by rewrite after_deferred, around_after.
Qed.

(** X9. No chain of the four stages changes the request, the cancellation
    context or the selection filter of the request context. *)
Theorem chain_keeps_request (ks : list Stage) (rc : RequestContext)
    (cc : ClientContext) :
  Request (final (run (chain ks None) rc cc)) = Request rc /\
  Ctx (final (run (chain ks None) rc cc)) = Ctx rc /\
  SelectionFilter (final (run (chain ks None) rc cc)) = SelectionFilter rc.
Proof.
  change (same_request rc (final (run (chain ks None) rc cc))).
  revert rc. induction ks as [|k ks IH]; intros rc; [done|].
  simpl.
  destruct (stage_outcome k rc cc)
    as [(r0 & Hstop & Hsame & _)|(rc' & pre & post & Hsame & Hrun & _)].
  - by rewrite Hstop.
  - rewrite Hrun. simpl. eapply same_request_trans; [exact Hsame|apply IH].
Qed.


(** X11. A chain with no commit stage calls neither the event service nor
    the transactor's [CreateTransaction] and [SendTransaction]. *)
Theorem chain_without_commit (ks : list Stage) (rc : RequestContext)
    (cc : ClientContext) :
  CommitAndConfirm ∉ ks ->
  Forall (fun c => is_commit_call c = false) (calls (run (chain ks None) rc cc)).
Proof.
  revert rc. induction ks as [|k ks IH]; intros rc Hks; [constructor|].
  simpl.
  assert (Hk : k <> CommitAndConfirm) by (intros ->; apply Hks; by left).
  assert (Hks' : CommitAndConfirm ∉ ks) by (intros Hin; apply Hks; by right).
  destruct (stage_outcome k rc cc)
    as [(r0 & Hstop & _ & _ & _ & Hcalls & _)
       |(rc' & pre & post & _ & Hrun & Hcalls & _)].
  - rewrite Hstop. by apply Hcalls.
  - rewrite Hrun. destruct (Hcalls Hk) as [Hpre ->].
    unfold around. simpl. rewrite !Forall_app. split; [exact Hpre|].
    split; [by apply IH|]. by destruct (exit _).
Qed.
(** X12. Targets given by the caller stay as given: a chain of stages
    entered with a non-empty target list ends with the same options. *)
Theorem chain_keeps_given_targets (ks : list Stage) (rc : RequestContext)
    (cc : ClientContext) :
  Targets (Opts rc) <> [] ->
  Opts (final (run (chain ks None) rc cc)) = Opts rc.
Proof.
  revert rc. induction ks as [|k ks IH]; intros rc Ht; [done|].
  simpl.
  destruct (stage_outcome k rc cc)
    as [(r0 & Hstop & _ & _ & _ & _ & Hopts)
       |(rc' & pre & post & _ & Hrun & _ & Hopts)].
  - rewrite Hstop. by apply Hopts.
  - rewrite Hrun. simpl. rewrite <- (Hopts Ht). apply IH.
    by rewrite (Hopts Ht).
Qed.

(** X13. [createAndSendTransactionProposal] starts with the header. It
    returns a proposal only after sending it, as its last call, to the
    targets it was given, and then returns the transactor's responses and
    error as they are; it returns no proposal only with no responses, an
    error with a message added, and without any send. *)
Theorem proposal_returned_only_when_sent (transactor : fab.Transactor)
    (chrequest : api.Request) (targets : list fab.ProposalProcessor) :
  let '(cs, (resps, proposal, err)) :=
    createAndSendTransactionProposal transactor chrequest targets in
  cs !! 0%nat = Some CreateTransactionHeader_call /\
  (forall p, proposal = Some p ->
     (resps, err) = fab.SendTransactionProposal transactor p targets /\
     last cs = Some (SendTransactionProposal_call p targets)) /\
  (proposal = None ->
     resps = [] /\ (exists cause msg, err = Some (WithMessage cause msg)) /\
     forall p ts, SendTransactionProposal_call p ts ∉ cs).
Proof.
  unfold createAndSendTransactionProposal.
  destruct (fab.CreateTransactionHeader transactor) as [txh|e].
  2: { split; [done|]. split; [done|]. intros _. split; [done|].
       split; [by eexists _, _|]. intros p ts Hin.
       by apply list_elem_of_singleton in Hin. }
  destruct (txn_CreateChaincodeInvokeProposal txh _) as [p|e].
  2: { split; [done|]. split; [done|]. intros _. split; [done|].
       split; [by eexists _, _|]. intros p ts Hin.
       rewrite !elem_of_cons in Hin.
       destruct Hin as [?|[?|Hin]]; [done|done|].
       by apply elem_of_nil in Hin. }
  destruct (fab.SendTransactionProposal transactor p targets)
    as [resps err] eqn:Hsend.
  split; [done|]. split; [|done].
  by intros ? [= <-].
Qed.
End ChainInvariants.


Lemma chain_keeps_given_targets_witness :
  Opts (final (@run Sample.codes Sample.externals
                 (chain [TargetResolution; Endorsement; Validation;
                         CommitAndConfirm] None)
                 (Sample.fresh ["peer7"] 1) Sample.client)) =
  mkOpts ["peer7"].
Proof.
  refine (@chain_keeps_given_targets Sample.codes Sample.externals
            [TargetResolution; Endorsement; Validation; CommitAndConfirm]
            (Sample.fresh ["peer7"] 1) Sample.client _).
  discriminate.
Defined.

Lemma proposal_returned_only_when_sent_witness :
  fst (@createAndSendTransactionProposal Sample.externals
         Sample.transactor_with_empty_header Sample.request ["peer1"]) =
    [CreateTransactionHeader_call;
     CreateChaincodeInvokeProposal_call (fab.mkTransactionHeader "")
       (invoke_request (Sample.fresh [] 0))] /\
  forall p ts,
    SendTransactionProposal_call p ts ∉
      fst (@createAndSendTransactionProposal Sample.externals
             Sample.transactor_with_empty_header Sample.request ["peer1"]).
Proof.
  split; [reflexivity|].
  exact (proj2 (proj2 (proj2 (proj2
           (@proposal_returned_only_when_sent Sample.externals
              Sample.transactor_with_empty_header Sample.request ["peer1"]))
           eq_refl))).
Defined.

Lemma chain_without_commit_witness :
  Forall (fun c => is_commit_call c = false)
    (calls (@run Sample.codes Sample.externals
              (chain [TargetResolution; Endorsement; Validation] None)
              (Sample.fresh [] 0) Sample.client)).
Proof.
  refine (@chain_without_commit Sample.codes Sample.externals
            [TargetResolution; Endorsement; Validation]
            (Sample.fresh [] 0) Sample.client _).
  rewrite !not_elem_of_cons. repeat split; try discriminate.
  apply not_elem_of_nil.
Defined.

(** * Properties of the event endpoint discovery provider *)

Section EndpointFacts.
Context `{endpoint.Imports}.

Lemma GetPeers_from_ok (s : endpoint.discoveryService)
    (acc peers eps : list fab.Peer) :
  Forall2 (endpoint.endpoint_of
             (endpoint.Client_Config (endpoint.service_ctx s))) peers eps ->
  endpoint.GetPeers_from s acc peers = (acc ++ eps, None).
Proof.
  intros Hall. revert acc.
  induction Hall as [|peer ep peers eps (pc & Hcfg & Hep) _ IH]; intros acc;
    simpl.
  - by rewrite app_nil_r.
  - rewrite Hcfg, Hep, IH. by rewrite <- app_assoc.
Qed.

Lemma GetPeers_from_fail (s : endpoint.discoveryService)
    (acc pre later eps : list fab.Peer) (peer : fab.Peer) (e : error) :
  Forall2 (endpoint.endpoint_of
             (endpoint.Client_Config (endpoint.service_ctx s))) pre eps ->
  endpoint.conversion_error
    (endpoint.Client_Config (endpoint.service_ctx s)) peer e ->
  endpoint.GetPeers_from s acc (pre ++ peer :: later) = ([], Some e).
Proof.
  intros Hall Hfail. revert acc.
  induction Hall as [|peer' ep pre eps (pc & Hcfg & Hep) _ IH]; intros acc;
    simpl.
  - destruct Hfail as [(pc & err & Hcfg & ->)
                      |[[Hcfg ->]|(pc & err & Hcfg & Hep & ->)]];
      rewrite Hcfg; [done|done|]. by rewrite Hep.
  - by rewrite Hcfg, Hep, IH.
Qed.

Lemma GetPeers_from_inv (s : endpoint.discoveryService)
    (acc peers res : list fab.Peer) (o : option error) :
  endpoint.GetPeers_from s acc peers = (res, o) ->
  match o with
  | None =>
      exists eps, res = acc ++ eps /\
        Forall2 (endpoint.endpoint_of
                   (endpoint.Client_Config (endpoint.service_ctx s))) peers eps
  | Some e =>
      res = [] /\
      exists pre peer later eps,
        peers = pre ++ peer :: later /\
        Forall2 (endpoint.endpoint_of
                   (endpoint.Client_Config (endpoint.service_ctx s))) pre eps /\
        endpoint.conversion_error
          (endpoint.Client_Config (endpoint.service_ctx s)) peer e
  end.
Proof.
  revert acc. induction peers as [|peer peers IH]; intros acc; simpl.
  - intros [= <- <-]. exists []. by rewrite app_nil_r.
  - destruct (endpoint.PeerConfigByURL _ (endpoint.URL peer))
      as [pc [err|]] eqn:Hcfg.
    { intros [= <- <-]. split; [done|]. exists [], peer, peers, [].
      split; [done|]. split; [constructor|]. left. by exists pc, err. }
    destruct pc as [pc|].
    2: { intros [= <- <-]. split; [done|]. exists [], peer, peers, [].
         split; [done|]. split; [constructor|]. right. by left. }
    destruct (endpoint.FromPeerConfig _ peer pc) as [ep|err] eqn:Hep.
    2: { intros [= <- <-]. split; [done|]. exists [], peer, peers, [].
         split; [done|]. split; [constructor|]. right. right.
         by exists pc, err. }
    intros Hrest. specialize (IH _ Hrest).
    assert (Hthis : endpoint.endpoint_of
              (endpoint.Client_Config (endpoint.service_ctx s)) peer ep)
      by (by exists pc).
    destruct o as [e|].
    + destruct IH as (-> & pre & peer' & later & eps & -> & Hpre & Hfail).
      split; [done|]. exists (peer :: pre), peer', later, (ep :: eps).
      split; [done|]. split; [by constructor|done].
    + destruct IH as (eps & -> & Hall). exists (ep :: eps).
      split; [by rewrite <- app_assoc|by constructor].
Qed.

(** X14. When the wrapped service discovers [peers] without error,
    [GetPeers] succeeds with [eps] exactly when [eps] lists, peer by peer and
    in the same order, the event endpoint made of each peer and its
    configuration; there are then as many endpoints as peers. *)
Theorem GetPeers_converts_every_peer (s : endpoint.discoveryService)
    (peers eps : list fab.Peer) :
  endpoint.GetPeers (endpoint.embedded_DiscoveryService s) = (peers, None) ->
  (endpoint.discoveryService_GetPeers s = (eps, None) <->
   Forall2 (endpoint.endpoint_of
              (endpoint.Client_Config (endpoint.service_ctx s))) peers eps) /\
  (endpoint.discoveryService_GetPeers s = (eps, None) ->
   length eps = length peers).
Proof.
  intros Hpeers. unfold endpoint.discoveryService_GetPeers. rewrite Hpeers.
  assert (Hiff : endpoint.GetPeers_from s [] peers = (eps, None) <->
            Forall2 (endpoint.endpoint_of
              (endpoint.Client_Config (endpoint.service_ctx s))) peers eps).
  { split.
    - intros Hres. by destruct (GetPeers_from_inv _ _ _ _ _ Hres) as (? & -> & ?).
    - intros Hall. by rewrite (GetPeers_from_ok s [] peers eps Hall). }
  split; [exact Hiff|].
  intros Hres. symmetry. eapply Forall2_length, Hiff, Hres.
Qed.

(** X15. [GetPeers] is all or nothing, and the first peer that cannot be
    converted decides the error. It fails with [e] exactly when the list it
    returns is nil and either the wrapped service failed with [e], or the
    wrapped service discovered peers of which some peer, all peers before it
    having an endpoint, has a configuration lookup that fails, or no
    configuration, or no endpoint, [e] being the error that says so and
    names the peer's URL. *)
Theorem GetPeers_fails_at_first_peer (s : endpoint.discoveryService)
    (res : list fab.Peer) (e : error) :
  endpoint.discoveryService_GetPeers s = (res, Some e) <->
  res = [] /\
  (snd (endpoint.GetPeers (endpoint.embedded_DiscoveryService s)) = Some e \/
   (snd (endpoint.GetPeers (endpoint.embedded_DiscoveryService s)) = None /\
    exists pre peer later eps,
      fst (endpoint.GetPeers (endpoint.embedded_DiscoveryService s)) =
        pre ++ peer :: later /\
      Forall2 (endpoint.endpoint_of
                 (endpoint.Client_Config (endpoint.service_ctx s))) pre eps /\
      endpoint.conversion_error
        (endpoint.Client_Config (endpoint.service_ctx s)) peer e)).
Proof.
  unfold endpoint.discoveryService_GetPeers.
  destruct (endpoint.GetPeers (endpoint.embedded_DiscoveryService s))
    as [peers [err|]]; simpl.
  - split.
    + intros [= <- <-]. split; [done|by left].
    + intros [-> [[= ->]|[? _]]]; done.
  - split.
    + intros Hres. destruct (GetPeers_from_inv _ _ _ _ _ Hres) as [-> Hex].
      split; [done|]. right. by split.
    + intros [-> [?|[_ (pre & peer & later & eps & -> & Hpre & Hfail)]]];
        [done|].
      by apply (GetPeers_from_fail s [] pre later eps peer e).
Qed.

Lemma NewDiscoveryProvider_filters (c : endpoint.context_Client)
    (fs : list (option endpoint.fab_TargetFilter)) :
  endpoint.NewDiscoveryProvider c (map endpoint.WithTargetFilter fs) =
    endpoint.mkDiscoveryProvider (endpoint.Client_DiscoveryProvider c) c
      (default None (last fs)).
Proof.
  unfold endpoint.NewDiscoveryProvider.
  induction fs as [|f fs IH] using rev_ind; [done|].
  rewrite map_app, foldl_app, IH, last_snoc. reflexivity.
Qed.

(** X16. Options are applied from left to right: whatever options come
    first, a provider has the filter of a target-filter option given last,
    and no filter when there are no options; target-filter options leave the
    wrapped provider and the client context as the constructor set them. *)
Theorem NewDiscoveryProvider_last_filter (c : endpoint.context_Client) :
  (forall opts f,
     endpoint.filter
       (endpoint.NewDiscoveryProvider c
          (opts ++ [endpoint.WithTargetFilter f])) = f) /\
  endpoint.filter (endpoint.NewDiscoveryProvider c []) = None /\
  (forall fs,
     let p := endpoint.NewDiscoveryProvider c
                (map endpoint.WithTargetFilter fs) in
     endpoint.embedded_DiscoveryProvider p =
       endpoint.Client_DiscoveryProvider c /\
     endpoint.ctx p = c /\
     endpoint.filter p = default None (last fs)).
Proof.
  split; [|split].
  - intros opts f. unfold endpoint.NewDiscoveryProvider.
    by rewrite foldl_app.
  - reflexivity.
  - intros fs p. subst p. by rewrite NewDiscoveryProvider_filters.
Qed.

(** X17. A provider built with target-filter options creates a service for
    a channel exactly when the provider of the client context does, and with
    the same error otherwise. The service wraps the one of the client
    context, behind a filter service for the last filter given when that
    filter is not nil, and directly when no filter was given or the last one
    is nil. *)
Theorem CreateDiscoveryService_of_new_provider (c : endpoint.context_Client)
    (fs : list (option endpoint.fab_TargetFilter)) (channelID : string) :
  endpoint.CreateDiscoveryService
    (endpoint.NewDiscoveryProvider c (map endpoint.WithTargetFilter fs))
    channelID =
  match endpoint.fab_CreateDiscoveryService
          (endpoint.Client_DiscoveryProvider c) channelID with
  | inr err => inr err
  | inl target =>
      inl (endpoint.mkDiscoveryService
             match default None (last fs) with
             | Some f => endpoint.discovery_NewDiscoveryFilterService target f
             | None => target
             end c)
  end.
Proof. by rewrite NewDiscoveryProvider_filters. Qed.
End EndpointFacts.

Lemma GetPeers_converts_every_peer_witness :
  @endpoint.discoveryService_GetPeers EndpointSample.imports
    (EndpointSample.service ["peer1"; "peer2"]) =
  (["events1"; "events2"], None).
Proof.
  refine (proj2 (proj1 (@GetPeers_converts_every_peer EndpointSample.imports
                          (EndpointSample.service ["peer1"; "peer2"])
                          ["peer1"; "peer2"] ["events1"; "events2"] eq_refl))
            _).
  repeat constructor.
  - by exists (endpoint.mkPeerConfig "peer1" "events1").
  - by exists (endpoint.mkPeerConfig "peer2" "events2").
Defined.

Lemma GetPeers_fails_at_first_peer_witness :
  @endpoint.discoveryService_GetPeers EndpointSample.imports
    (EndpointSample.service ["peer1"; "peer4"; "peer3"]) =
  ([], Some (ErrorsNew "unable to get peer config from [peer4]")).
Proof.
  refine (proj2 (@GetPeers_fails_at_first_peer EndpointSample.imports
                   (EndpointSample.service ["peer1"; "peer4"; "peer3"])
                   [] (ErrorsNew "unable to get peer config from [peer4]"))
            _).
  split; [reflexivity|]. right. split; [reflexivity|].
  exists ["peer1"], "peer4", ["peer3"], ["events1"].
  split; [reflexivity|]. split.
  - repeat constructor. by exists (endpoint.mkPeerConfig "peer1" "events1").
  - right. left. by split.
Defined.

(** A provider with a filter for [peer1], over a client context that
    discovers [peer1] and the unconfigured [peer4]: the service it creates
    converts [peer1] alone; without the filter, [GetPeers] fails at
    [peer4]. *)
Example filtered_service_end_to_end :
  (match @endpoint.CreateDiscoveryService EndpointSample.imports
           (endpoint.NewDiscoveryProvider
              (EndpointSample.client ["peer1"; "peer4"])
              [endpoint.WithTargetFilter (Some EndpointSample.only_peer1)])
           "mychannel" with
   | inl s => @endpoint.discoveryService_GetPeers EndpointSample.imports s
   | inr err => ([], Some err)
   end = (["events1"], None)) /\
  (match @endpoint.CreateDiscoveryService EndpointSample.imports
           (endpoint.NewDiscoveryProvider
              (EndpointSample.client ["peer1"; "peer4"]) [])
           "mychannel" with
   | inl s => @endpoint.discoveryService_GetPeers EndpointSample.imports s
   | inr err => ([], Some err)
   end = ([], Some (ErrorsNew "unable to get peer config from [peer4]"))).
Proof. split; reflexivity. Qed.
